(** * The media gateway of [server.py]: transcription and speech synthesis

    A shallow embedding of the two Flask handlers [transcribe] and
    [text_to_speech], of the coroutine [generate_tts_audio] and of the
    table [language_dict], followed by the properties of the gateway that
    are settled on it.

    - Python values are a data type [pyval]; a [str] is the list of its
      code points.
    - The handlers run in a state-and-exception monad over a [world]: the
      temporary files that exist, the voice catalog (a module-level dict,
      hence mutable in principle) and the log of calls made to the two
      remote backends.
    - What the collaborators outside the repository do during one request
      (tempfile, the upload's [save], [replicate.run], [edge_tts],
      [send_file]) is given by a record [externals]. *)

From stdpp Require Import gmap list fin_maps strings.
From Stdlib Require Import ZArith NArith Ascii Floats.SpecFloat.

Open Scope Z_scope.

(** ** Python strings *)

(** A [str] is a sequence of Unicode code points. *)
Definition pystr := list N.

(** The [str] denoted by a source literal. *)
Definition py (s : string) : pystr := N_of_ascii <$> String.list_ascii_of_string s.
Arguments py : simpl never.

Definition str_eqb (a b : pystr) : bool := bool_decide (a = b).

(** [str.isspace] on one code point: the white space table of CPython's
    Unicode database, which is what [str.strip()] without argument
    removes. *)
Definition py_isspace (c : N) : bool :=
  ((9 <=? c) && (c <=? 13) || (28 <=? c) && (c <=? 32) ||
   (c =? 133) || (c =? 160) || (c =? 5760) ||
   (8192 <=? c) && (c <=? 8202) ||
   (c =? 8232) || (c =? 8233) || (c =? 8239) || (c =? 8287) ||
   (c =? 12288))%N.

Fixpoint lstrip (s : pystr) : pystr :=
  match s with
  | c :: s' => if py_isspace c then lstrip s' else s
  | [] => []
  end.

Definition rstrip (s : pystr) : pystr := rev (lstrip (rev s)).

(** [s.strip()] *)
Definition strip (s : pystr) : pystr := rstrip (lstrip s).

Fixpoint is_prefix (p s : pystr) : bool :=
  match p, s with
  | [], _ => true
  | a :: p', b :: s' => (a =? b)%N && is_prefix p' s'
  | _ :: _, [] => false
  end.

(** [needle in s] for two strings: substring search. *)
Fixpoint is_substring (needle s : pystr) : bool :=
  is_prefix needle s ||
  match s with
  | [] => false
  | _ :: s' => is_substring needle s'
  end.

(** ** Python values of the JSON kind

    What [request.get_json()] decodes and what the transcription client
    hands back: [None], booleans, numbers, strings, lists, and dicts with
    string keys. A dict is the list of its items in insertion order, keys
    distinct. *)
#[warnings="-register-all"]
Inductive pyval : Type :=
| PNone
| PBool (b : bool)
| PInt (z : Z)
| PFloat (f : spec_float)
| PStr (s : pystr)
| PList (l : list pyval)
| PDict (d : list (pystr * pyval)).

(** [d.get(k)] on the items of a dict. *)
Fixpoint assoc {V : Type} (k : pystr) (d : list (pystr * V)) : option V :=
  match d with
  | [] => None
  | (k', v) :: d' => if str_eqb k k' then Some v else assoc k d'
  end.

(** [type(v).__name__] *)
Definition type_name (v : pyval) : pystr :=
  match v with
  | PNone => py "NoneType"
  | PBool _ => py "bool"
  | PInt _ => py "int"
  | PFloat _ => py "float"
  | PStr _ => py "str"
  | PList _ => py "list"
  | PDict _ => py "dict"
  end.

(** [bool(v)] *)
Definition truthy (v : pyval) : bool :=
  match v with
  | PNone => false
  | PBool b => b
  | PInt z => negb (z =? 0)
  | PFloat (S754_zero _) => false
  | PFloat _ => true
  | PStr s => match s with [] => false | _ :: _ => true end
  | PList l => match l with [] => false | _ :: _ => true end
  | PDict d => match d with [] => false | _ :: _ => true end
  end.

(** ** Exceptions

    Only instances of [Exception] are modelled: the class both handlers
    catch. [message e] is [str(e)]. *)
Inductive exn_class : Type :=
| AttributeError | TypeError | KeyError | IndexError | FileNotFoundError
| ExternalError.

Record exn : Type := Exn { kind : exn_class; message : pystr }.

Inductive outcome (A : Type) : Type :=
| Return (a : A)
| Raise (e : exn).
Arguments Return {A} a.
Arguments Raise {A} e.

(** [needle in v], with [needle] a string. The wording of the messages is
    that of CPython 3.11 to 3.13. *)
Definition py_in (needle : pystr) (v : pyval) : outcome bool :=
  match v with
  | PDict d => Return (bool_decide (is_Some (assoc needle d)))
  | PList l =>
      Return (existsb (fun x => match x with
                                | PStr s => str_eqb s needle
                                | _ => false
                                end) l)
  | PStr s => Return (is_substring needle s)
  | _ => Raise (Exn TypeError
                  (py "argument of type '" ++ type_name v ++ py "' is not iterable"))
  end.

(** [v[key]], with [key] a string. *)
Definition py_getitem (v : pyval) (key : pystr) : outcome pyval :=
  match v with
  | PDict d =>
      match assoc key d with
      | Some x => Return x
      | None => Raise (Exn KeyError (py "'" ++ key ++ py "'"))
      end
  | PList _ =>
      Raise (Exn TypeError (py "list indices must be integers or slices, not str"))
  | PStr _ =>
      Raise (Exn TypeError (py "string indices must be integers, not 'str'"))
  | _ => Raise (Exn TypeError
                  (py "'" ++ type_name v ++ py "' object is not subscriptable"))
  end.

(** [v.get(key, default)] *)
Definition py_get (v : pyval) (key : pystr) (default : pyval) : outcome pyval :=
  match v with
  | PDict d => Return (from_option id default (assoc key d))
  | _ => Raise (Exn AttributeError
                  (py "'" ++ type_name v ++ py "' object has no attribute 'get'"))
  end.

(** [v.strip()] *)
Definition py_strip (v : pyval) : outcome pystr :=
  match v with
  | PStr s => Return (strip s)
  | _ => Raise (Exn AttributeError
                  (py "'" ++ type_name v ++ py "' object has no attribute 'strip'"))
  end.

#[global] Instance outcome_ret : MRet outcome := λ A a, Return a.
#[global] Instance outcome_bind : MBind outcome := λ A B f m,
  match m with
  | Return a => f a
  | Raise e => Raise e
  end.

(** ** The voice catalog *)

(** language name -> (speaker name -> voice identifier), both levels in
    the order of the dict literal. *)
Definition voice_catalog := list (pystr * list (pystr * pystr)).

Definition language_dict : voice_catalog :=
  [ (py "English",   [ (py "Jenny", py "en-US-JennyNeural");
                       (py "Guy", py "en-US-GuyNeural") ]);
    (py "Hindi",     [ (py "Madhur", py "hi-IN-MadhurNeural");
                       (py "Swara", py "hi-IN-SwaraNeural") ]);
    (py "Tamil",     [ (py "Pallavi", py "ta-IN-PallaviNeural");
                       (py "Valluvar", py "ta-IN-ValluvarNeural") ]);
    (py "Telugu",    [ (py "Mohan", py "te-IN-MohanNeural");
                       (py "Shruti", py "te-IN-ShrutiNeural") ]);
    (py "Kannada",   [ (py "Gagan", py "kn-IN-GaganNeural");
                       (py "Sapna", py "kn-IN-SapnaNeural") ]);
    (py "Malayalam", [ (py "Midhun", py "ml-IN-MidhunNeural");
                       (py "Sobhana", py "ml-IN-SobhanaNeural") ]);
    (py "Marathi",   [ (py "Aarohi", py "mr-IN-AarohiNeural");
                       (py "Manohar", py "mr-IN-ManoharNeural") ]);
    (py "Gujarati",  [ (py "Dhwani", py "gu-IN-DhwaniNeural");
                       (py "Niranjan", py "gu-IN-NiranjanNeural") ]);
    (py "Bengali",   [ (py "Nabanita", py "bn-BD-NabanitaNeural");
                       (py "Bashkar", py "bn-IN-BashkarNeural") ]);
    (py "Urdu",      [ (py "Gul", py "ur-IN-GulNeural");
                       (py "Salman", py "ur-IN-SalmanNeural") ]) ].

(** Every voice identifier of a catalog. *)
Definition catalog_voices (cat : voice_catalog) : list pystr :=
  flat_map (λ entry : pystr * list (pystr * pystr), map snd (snd entry)) cat.

(** [language in cat]: hashing the key comes first, and a key that is not
    a string equals none of the catalog's keys. *)
Definition catalog_contains (cat : voice_catalog) (language : pyval)
  : outcome bool :=
  match language with
  | PStr s => Return (bool_decide (is_Some (assoc s cat)))
  | PList _ | PDict _ =>
      Raise (Exn TypeError (py "unhashable type: '" ++ type_name language ++ py "'"))
  | _ => Return false
  end.

(** [cat[language]]. [resolve_voice] asks only for keys it has found or for
    "English", so of the failing branches only a catalog without English
    can be met. *)
Definition catalog_getitem (cat : voice_catalog) (language : pyval)
  : outcome (list (pystr * pystr)) :=
  match language with
  | PStr s =>
      match assoc s cat with
      | Some speakers => Return speakers
      | None => Raise (Exn KeyError (py "'" ++ s ++ py "'"))
      end
  | PList _ | PDict _ =>
      Raise (Exn TypeError (py "unhashable type: '" ++ type_name language ++ py "'"))
  | _ => Raise (Exn KeyError (type_name language))
  end.

(** [list(speakers.keys())[0]] *)
Definition first_key (speakers : list (pystr * pystr)) : outcome pystr :=
  match speakers with
  | (name, _) :: _ => Return name
  | [] => Raise (Exn IndexError (py "list index out of range"))
  end.

(** Lines 70 to 76 of [generate_tts_audio]: the language falls back to
    English, the speaker is the first one of the language; the result is
    the speaker's name and the voice identifier. *)
Definition resolve_voice (cat : voice_catalog) (language : pyval)
  : outcome (pystr * pystr) :=
  known ← catalog_contains cat language;
  let language := if known : bool then language else PStr (py "English") in
  speakers ← catalog_getitem cat language;
  speaker_name ← first_key speakers;
  match assoc speaker_name speakers with
  | Some voice => Return (speaker_name, voice)
  | None => Raise (Exn KeyError (py "'" ++ speaker_name ++ py "'"))
  end.

(** ** The world a request runs in *)

(** A temporary file: the suffix it was created with and its bytes. Files
    are named by the unique token tempfile puts in their name. *)
Record tmpfile : Type := TmpFile { suffix : pystr; content : list Byte.byte }.

(** An argument of a backend call: an open file, or a plain value. *)
Inductive pyarg : Type :=
| AFile (name : N)
| AVal (v : pyval).

(** Calls into the two backend libraries: [replicate.run], the
    construction of [edge_tts.Communicate] and its [save]. *)
Inductive backend_call : Type :=
| ReplicateRun (ref : pystr) (input : list (pystr * pyarg))
| EdgeCommunicate (text : pyval) (voice : pystr)
| EdgeSave (text : pyval) (voice : pystr) (dest : N).

Record world : Type := World {
  fs : gmap N tmpfile;
  catalog : voice_catalog;
  backend_log : list backend_call
}.

(** The process after start-up: no temporary file, the catalog as the
    module defines it, no call made. *)
Definition startup : world := World ∅ language_dict [].

(** What the code outside the repository does during one request. *)
Record externals : Type := Externals {
  tempfile_fault : option exn;        (* NamedTemporaryFile raises *)
  upload_save_fault : option exn;     (* audio_file.save raises *)
  replicate_run : outcome pyval;      (* replicate.run returns or raises *)
  edge_tts_save : outcome (list Byte.byte); (* communicate.save writes or raises *)
  send_file_fault : option exn        (* send_file raises *)
}.

(** ** State and exceptions *)

Definition M (A : Type) : Type := world → outcome A * world.

#[global] Instance M_ret : MRet M := λ A a w, (Return a, w).
#[global] Instance M_bind : MBind M := λ A B f m w,
  match m w with
  | (Return a, w') => f a w'
  | (Raise e, w') => (Raise e, w')
  end.

Definition lift {A : Type} (o : outcome A) : M A := λ w, (o, w).

Definition raise_if (fault : option exn) : M unit :=
  λ w, match fault with
       | Some e => (Raise e, w)
       | None => (Return (), w)
       end.

(** [try: body except Exception as e: handler e] *)
Definition try_except {A : Type} (body : M A) (handler : exn → M A) : M A :=
  λ w, match body w with
       | (Return a, w') => (Return a, w')
       | (Raise e, w') => handler e w'
       end.

(** [try: body finally: final] *)
Definition try_finally {A : Type} (body : M A) (final : M unit) : M A :=
  λ w, match body w with
       | (r, w') =>
           match final w' with
           | (Return _, w'') => (r, w'')
           | (Raise e, w'') => (Raise e, w'')
           end
       end.

(** ** Files *)

Definition set_fs (f : gmap N tmpfile → gmap N tmpfile) (w : world) : world :=
  World (f (fs w)) (catalog w) (backend_log w).

Definition log_call (c : backend_call) : M unit :=
  λ w, (Return (), World (fs w) (catalog w) (backend_log w ++ [c])).

(** [tempfile.NamedTemporaryFile(delete=False, suffix=sfx)]: a new, empty
    file under a name no existing file has. *)
Definition NamedTemporaryFile (x : externals) (sfx : pystr) : M N :=
  λ w, match tempfile_fault x with
       | Some e => (Raise e, w)
       | None =>
           let name := fresh (dom (fs w)) in
           (Return name, set_fs <[name := TmpFile sfx []]> w)
       end.

(** Writing a whole file: the file is created when it is missing. *)
Definition write_file (name : N) (bytes : list Byte.byte) : M unit :=
  λ w, (Return (),
        set_fs (λ files,
                  <[name := TmpFile (from_option suffix [] (files !! name)) bytes]>
                    files) w).

(** [open(name, "rb")] *)
Definition py_open (name : N) : M pyarg :=
  λ w, match fs w !! name with
       | Some _ => (Return (AFile name), w)
       | None => (Raise (Exn FileNotFoundError
                           (py "[Errno 2] No such file or directory")), w)
       end.

(** [os.path.exists(name)] *)
Definition os_path_exists (name : N) : M bool :=
  λ w, (Return (bool_decide (is_Some (fs w !! name))), w).

(** [os.unlink(name)] *)
Definition os_unlink (name : N) : M unit :=
  λ w, match fs w !! name with
       | Some _ => (Return (), set_fs (delete name) w)
       | None => (Raise (Exn FileNotFoundError
                           (py "[Errno 2] No such file or directory")), w)
       end.

(** ** Responses *)

Inductive body : Type :=
| JsonBody (v : pyval)
| FileBody (name : N) (mimetype download_name : pystr).

Record response : Type := Response { resp_body : body; status : Z }.

(** [jsonify(d)], which answers 200 unless a status goes with it. *)
Definition jsonify (d : list (pystr * pyval)) : body := JsonBody (PDict d).

Definition error_body (msg : pystr) : body := jsonify [(py "error", PStr msg)].

(** [send_file(name, mimetype='audio/mpeg', as_attachment=False,
    download_name='speech.mp3')]: the file is opened at once. *)
Definition send_file (x : externals) (name : N) : M response :=
  λ w, match fs w !! name with
       | None => (Raise (Exn FileNotFoundError
                           (py "[Errno 2] No such file or directory")), w)
       | Some _ =>
           match send_file_fault x with
           | Some e => (Raise e, w)
           | None =>
               (Return (Response (FileBody name (py "audio/mpeg") (py "speech.mp3"))
                          200), w)
           end
       end.

(** The outermost [try ... except Exception as e: return ...] of a
    handler: whatever the body raises becomes a response. *)
Definition handle_request (body : M response) (on_error : exn → response)
  : world → response * world :=
  λ w, match body w with
       | (Return r, w') => (r, w')
       | (Raise e, w') => (on_error e, w')
       end.

(** ** Speech synthesis *)

(** [generate_tts_audio(text, language)]. The coroutine is run to its end
    by [loop.run_until_complete], so it is embedded as a plain
    computation. *)
Definition generate_tts_audio (x : externals) (text language : pyval) : M N :=
  cat ← (λ w, (Return (catalog w), w));
  '(speaker_name, voice) ← lift (resolve_voice cat language);
  log_call (EdgeCommunicate text voice);;
  temp_audio ← NamedTemporaryFile x (py ".mp3");
  log_call (EdgeSave text voice temp_audio);;
  audio ← lift (edge_tts_save x);
  write_file temp_audio audio;;
  mret temp_audio.

(** What the handler of [/tts] reads of a request. *)
Record tts_request : Type := TtsRequest {
  get_json : outcome pyval   (* request.get_json() returns or raises *)
}.

(** [not data or 'text' not in data] *)
Definition text_missing (data : pyval) : outcome bool :=
  if negb (truthy data) then Return true
  else present ← py_in (py "text") data; Return (negb present).

(** The handler of [POST /tts]. *)
Definition text_to_speech (x : externals) (request : tts_request)
  : world → response * world :=
  handle_request
    (data ← lift (get_json request);
     missing ← lift (text_missing data);
     if missing : bool then
       mret (Response (error_body (py "No text provided")) 400)
     else
       text ← lift (py_getitem data (py "text"));
       language ← lift (py_get data (py "language") (PStr (py "English")));
       stripped ← lift (py_strip text);
       match stripped with
       | [] => mret (Response (error_body (py "Empty text provided")) 400)
       | _ :: _ =>
           try_finally
             (audio_file_path ← generate_tts_audio x text language;
              send_file x audio_file_path)
             (mret ())   (* loop.close() *)
       end)
    (λ e, Response (error_body (py "TTS generation failed: " ++ message e)) 500).

(** ** Transcription *)

(** An uploaded file of the multipart form. *)
Record FileStorage : Type := Upload { filename : pystr; stream : list Byte.byte }.

(** What the handler of [/transcribe] reads of a request. *)
Record transcribe_request : Type := TranscribeRequest {
  files : list (pystr * FileStorage)   (* request.files *)
}.

Definition whisper_version : pystr :=
  py "openai/whisper:4d50797290df275329f202e48c76360b3f22b08d28c196cbc54600319435f8d2".

(** The decoding options passed next to the audio; [-1.0] and [0.6] are
    the binary64 values of the literals. *)
Definition whisper_config : list (pystr * pyarg) :=
  [ (py "model", AVal (PStr (py "large-v3")));
    (py "language", AVal (PStr (py "auto")));
    (py "translate", AVal (PBool false));
    (py "temperature", AVal (PInt 0));
    (py "suppress_tokens", AVal (PStr (py "-1")));
    (py "logprob_threshold", AVal (PFloat (S754_finite true 4503599627370496 (-52))));
    (py "no_speech_threshold", AVal (PFloat (S754_finite false 5404319552844595 (-53))));
    (py "condition_on_previous_text", AVal (PBool true)) ].

(** [audio_file.save(name)] *)
Definition upload_save (x : externals) (audio_file : FileStorage) (name : N)
  : M unit :=
  raise_if (upload_save_fault x);;
  write_file name (stream audio_file).

(** [replicate.run(version, input={"audio": open(name, "rb"), ...})] *)
Definition call_replicate (x : externals) (name : N) : M pyval :=
  audio ← py_open name;
  log_call (ReplicateRun whisper_version ((py "audio", audio) :: whisper_config));;
  lift (replicate_run x).

(** The handler of [GET /]. *)
Definition health_check (w : world) : response * world :=
  (Response (jsonify [ (py "status", PStr (py "Server is running"));
                       (py "message", PStr (py "Audio transcription service ready")) ])
     200, w).

(** A request to one of the three routes. *)
Inductive request : Type :=
| GetRoot
| PostTranscribe (r : transcribe_request)
| PostTts (r : tts_request).

Section Transcribe.

(** Python's built-in [str] on the values the backend can return. *)
Variable py_str : pyval → pystr.

(** Lines 140 to 146. *)
Definition extract_transcription (output : pyval) : pyval :=
  match output with
  | PDict d => from_option id (PStr (py_str output)) (assoc (py "transcription") d)
  | PStr _ => output
  | _ => PStr (py_str output)
  end.

(** [output.get("language") if isinstance(output, dict) else None] *)
Definition extract_language (output : pyval) : pyval :=
  match output with
  | PDict d => from_option id PNone (assoc (py "language") d)
  | _ => PNone
  end.

(** The handler of [POST /transcribe]. *)
Definition transcribe (x : externals) (request : transcribe_request)
  : world → response * world :=
  handle_request
    (match assoc (py "file") (files request) with
     | None => mret (Response (error_body (py "No audio file provided")) 400)
     | Some audio_file =>
         if str_eqb (filename audio_file) [] then
           mret (Response (error_body (py "No file selected")) 400)
         else
           temp ← NamedTemporaryFile x (py ".webm");
           upload_save x audio_file temp;;
           try_except
             (output ← call_replicate x temp;
              os_unlink temp;;
              mret (Response
                      (jsonify [ (py "transcription", extract_transcription output);
                                 (py "language", extract_language output) ])
                      200))
             (λ replicate_error,
                still_there ← os_path_exists temp;
                (if still_there : bool then os_unlink temp else mret ());;
                mret (Response
                        (error_body (py "Transcription failed: "
                                       ++ message replicate_error))
                        500))
     end)
    (λ e, Response (error_body (py "Server error: " ++ message e)) 500).

Definition serve (x : externals) (req : request) : world → response * world :=
  match req with
  | GetRoot => health_check
  | PostTranscribe r => transcribe x r
  | PostTts r => text_to_speech x r
  end.

(** The worlds the process can be in: after start-up, and after serving
    one more request, whatever the collaborators did meanwhile. *)
Inductive reachable : world → Prop :=
| reachable_startup : reachable startup
| reachable_serve (w : world) (x : externals) (req : request) :
    reachable w → reachable (serve x req w).2.

End Transcribe.

(** ** Predicates used in the statements *)

(** Keys a dict lookup accepts: everything but lists and dicts. *)
Definition hashable (v : pyval) : bool :=
  match v with
  | PList _ | PDict _ => false
  | _ => true
  end.

(** What [resolve_voice] needs of a catalog. *)
Definition catalog_ok (cat : voice_catalog) : Prop :=
  Forall (λ entry : pystr * list (pystr * pystr), entry.2 ≠ []) cat
  ∧ is_Some (assoc (py "English") cat).

(** A request that gets as far as the backend call: it carries a file
    with a name, and the temporary file could be created and written. *)
Definition dispatched (x : externals) (r : transcribe_request) : Prop :=
  (∃ audio_file, assoc (py "file") (files r) = Some audio_file
                 ∧ filename audio_file ≠ [])
  ∧ tempfile_fault x = None
  ∧ upload_save_fault x = None.

(** The one backend call of a request that starts in [w]. *)
Definition whisper_call (w : world) : backend_call :=
  ReplicateRun whisper_version
    ((py "audio", AFile (fresh (dom (fs w)))) :: whisper_config).

(** An error response: a JSON object whose only field, [error], is a
    string, with status 400 or 500. *)
Definition error_response (r : response) : Prop :=
  ∃ msg : pystr, resp_body r = JsonBody (PDict [(py "error", PStr msg)])
                 ∧ (status r = 400 ∨ status r = 500).

(** A synthesis request during which nothing failed. *)
Definition tts_clean (x : externals) (r : tts_request) : Prop :=
  (∃ data text, get_json r = Return data
                ∧ py_getitem data (py "text") = Return (PStr text)
                ∧ strip text ≠ [])
  ∧ tempfile_fault x = None
  ∧ (∃ audio, edge_tts_save x = Return audio)
  ∧ send_file_fault x = None.

(** A computation that leaves the catalog as it found it. *)
Definition keeps_catalog {A : Type} (m : M A) : Prop :=
  ∀ w, catalog (m w).2 = catalog w.

Create HintDb keeps discriminated.

(** Unfolding the monad down to matches on the world. *)
Ltac unfold_monad :=
  unfold handle_request, try_except, try_finally, upload_save, call_replicate,
    raise_if, log_call, NamedTemporaryFile, write_file, py_open,
    os_path_exists, os_unlink, send_file, lift, set_fs,
    mbind, mret, M_bind, M_ret in *.

(** The [model] option of a transcription call. *)
Definition model_of (c : backend_call) : option pyarg :=
  match c with
  | ReplicateRun _ input => assoc (py "model") input
  | _ => None
  end.

(** ** The remote control loop of [cec-remote.py]

    The script polls the CEC bus for ever and turns five button codes
    into key presses. The codes are constants of the cec library, and an
    event is whatever [cec.get_event()] returns: both are taken as given.
    The loop is embedded over the events of any finite number of polls:
    its state is the list of commands run so far. *)

Section CecRemote.

Context {event : Type} `{EqDecision event}.

(** [cec.CEC_USER_CONTROL_CODE.UP] and the four others. *)
Variables UP DOWN LEFT RIGHT SELECT : event.

(** [send_key(key)]: the argument vector handed to [subprocess.run]. *)
Definition send_key (key : pystr) : list pystr :=
  [py "xdotool"; py "key"; key].

(** One turn of the loop, [polled] being the result of [cec.get_event()],
    [None] when there was no event: the commands it runs. *)
Definition on_event (polled : option event) : list (list pystr) :=
  match polled with
  | None => []
  | Some e =>
      if bool_decide (e = UP) then [send_key (py "Up")]
      else if bool_decide (e = DOWN) then [send_key (py "Down")]
      else if bool_decide (e = LEFT) then [send_key (py "Left")]
      else if bool_decide (e = RIGHT) then [send_key (py "Right")]
      else if bool_decide (e = SELECT) then [send_key (py "Return")]
      else []
  end.

(** The loop over the given polls, from the commands [executed] so far. *)
Fixpoint remote_loop (polls : list (option event)) (executed : list (list pystr))
  : list (list pystr) :=
  match polls with
  | [] => executed
  | polled :: polls' => remote_loop polls' (executed ++ on_event polled)
  end.

End CecRemote.

(** ** Flat forms of the handlers, used in the statements *)

(** The 500 answer of [/tts]. *)
Definition tts_failed (e : exn) : response :=
  Response (error_body (py "TTS generation failed: " ++ message e)) 500.

(** What a synthesis request with a non-blank string [text] and the
    language value [language] comes to, step by step: resolution, the
    temporary file, the backend's [save], [send_file]. *)
Definition synthesis_run (x : externals) (text : pystr) (language : pyval)
    (w : world) : response * world :=
  match resolve_voice (catalog w) language with
  | Raise e => (tts_failed e, w)
  | Return (_, voice) =>
      let constructed := backend_log w ++ [EdgeCommunicate (PStr text) voice] in
      match tempfile_fault x with
      | Some e => (tts_failed e, World (fs w) (catalog w) constructed)
      | None =>
          let name := fresh (dom (fs w)) in
          let saved := constructed ++ [EdgeSave (PStr text) voice name] in
          match edge_tts_save x with
          | Raise e =>
              (tts_failed e,
               World (<[name := TmpFile (py ".mp3") []]> (fs w)) (catalog w) saved)
          | Return audio =>
              let w' := World (<[name := TmpFile (py ".mp3") audio]> (fs w))
                          (catalog w) saved in
              match send_file_fault x with
              | Some e => (tts_failed e, w')
              | None =>
                  (Response (FileBody name (py "audio/mpeg") (py "speech.mp3")) 200,
                   w')
              end
          end
      end
  end.

(** The first speaker of every language of a catalog, with the voice. *)
Definition first_speakers (cat : voice_catalog) : list (pystr * pystr) :=
  flat_map (λ entry : pystr * list (pystr * pystr),
              match entry.2 with
              | speaker :: _ => [speaker]
              | [] => []
              end) cat.

(** A call a request of the gateway can make: a transcription with the
    fixed options, or a synthesis with the voice of a first speaker. *)
Definition gateway_call (c : backend_call) : Prop :=
  match c with
  | ReplicateRun ref input =>
      ref = whisper_version
      ∧ ∃ name, input = (py "audio", AFile name) :: whisper_config
  | EdgeCommunicate _ voice | EdgeSave _ voice _ =>
      In voice (snd <$> first_speakers language_dict)
  end.

(** ** Sample requests and collaborators *)

(** Some [str]: the samples below never come to use it. *)
Definition str_placeholder : pyval → pystr := λ _, py "<object>".

Definition clip : FileStorage :=
  Upload (py "clip.webm") [Byte.x1a; Byte.x45; Byte.xdf; Byte.xa3].

Definition upload_request : transcribe_request :=
  TranscribeRequest [(py "file", clip)].

Definition hello_output : pyval :=
  PDict [ (py "transcription", PStr (py "hello world"));
          (py "language", PStr (py "en")) ].

(** Every collaborator does its work. *)
Definition backends_up : externals :=
  Externals None None (Return hello_output) (Return [Byte.xff; Byte.xfb]) None.

Definition quota_fault : exn :=
  Exn ExternalError (py "You have reached your quota").

(** The transcription backend refuses the call. *)
Definition replicate_down : externals :=
  Externals None None (Raise quota_fault) (Return [Byte.xff; Byte.xfb]) None.

Definition disk_full : exn :=
  Exn ExternalError (py "[Errno 28] No space left on device").

(** The upload cannot be written to the temporary file. *)
Definition upload_unwritable : externals :=
  Externals None (Some disk_full) (Return hello_output) (Return []) None.

(** The transcription backend answers with a dict that has a language
    and no transcription. *)
Definition language_only : externals :=
  Externals None None (Return (PDict [(py "language", PStr (py "en"))]))
    (Return []) None.

Definition say_hello : tts_request :=
  TtsRequest (Return (PDict [(py "text", PStr (py "hello"))])).

Definition say_hello_in_klingon : list (pystr * pyval) :=
  [ (py "text", PStr (py "hello"));
    (py "language", PStr (py "Klingon"));
    (py "speaker", PStr (py "Worf")) ].

Definition network_fault : exn :=
  Exn ExternalError (py "Cannot connect to host speech.platform.bing.com").

(** The synthesis backend cannot be reached. *)
Definition edge_down : externals :=
  Externals None None (Return hello_output) (Raise network_fault) None.


Definition say_hello_body : list (pystr * pyval) :=
  [(py "text", PStr (py "hello"))].

(** What [request.get_json()] raises for a request that carries no JSON
    body. *)
Definition no_json_body : exn :=
  Exn ExternalError
    (py "415 Unsupported Media Type: Did not attempt to load JSON data because the request Content-Type was not 'application/json'.").

(** * Properties *)

(** ** Strings and dicts *)

Lemma str_eqb_refl (k : pystr) : str_eqb k k = true.
Proof. unfold str_eqb. by apply bool_decide_eq_true. Qed.

Lemma str_eqb_eq (a b : pystr) : str_eqb a b = true → a = b.
Proof. unfold str_eqb. by intros ?%bool_decide_eq_true. Qed.

Lemma assoc_In {V : Type} (k : pystr) (d : list (pystr * V)) (v : V) :
  assoc k d = Some v → In (k, v) d.
Proof.
  induction d as [|[k' v'] d IH]; simpl; [done|].
  destruct (str_eqb k k') eqn:E.
  - intros [= ->]. left. by rewrite (str_eqb_eq _ _ E).
  - intros H. right. by apply IH.
Qed.

Lemma lstrip_head (s t : pystr) (c : N) :
  lstrip s = c :: t → py_isspace c = false.
Proof.
  induction s as [|a s IH]; simpl; [done|].
  destruct (py_isspace a) eqn:E; [done|]. by intros [= <- _].
Qed.

Lemma lstrip_nil (s : pystr) : lstrip s = [] ↔ forallb py_isspace s = true.
Proof.
  induction s as [|a s IH]; simpl; [done|].
  destruct (py_isspace a); simpl; [done|]. split; discriminate.
Qed.

Lemma forallb_rev_space (s : pystr) :
  forallb py_isspace (rev s) = true → forallb py_isspace s = true.
Proof.
  rewrite !forallb_forall. intros H c Hc. apply H. by apply in_rev in Hc.
Qed.

(** [strip] leaves nothing exactly when every character is white space. *)
Lemma strip_nil (s : pystr) : strip s = [] ↔ forallb py_isspace s = true.
Proof.
  unfold strip, rstrip. rewrite <- lstrip_nil. split.
  - intros H. destruct (lstrip s) as [|c t] eqn:E; [done|].
    exfalso. apply lstrip_head in E.
    assert (lstrip (rev (c :: t)) = []) as Hl.
    { destruct (lstrip (rev (c :: t))) as [|a l]; [done|].
      simpl in H. by destruct (rev l). }
    apply lstrip_nil, forallb_rev_space in Hl. simpl in Hl.
    rewrite E in Hl. done.
  - intros ->. done.
Qed.

Lemma assoc_cons_truthy (k : pystr) (d : list (pystr * pyval)) (v : pyval) :
  assoc k d = Some v → truthy (PDict d) = true.
Proof. by destruct d. Qed.

(** ** Voice resolution *)

Lemma catalog_voices_In (cat : voice_catalog) (l k v : pystr)
    (speakers : list (pystr * pystr)) :
  In (l, speakers) cat → In (k, v) speakers → In v (catalog_voices cat).
Proof.
  intros Hl Hk. unfold catalog_voices. apply in_flat_map.
  exists (l, speakers). split; [done|]. simpl.
  apply in_map_iff. by exists (k, v).
Qed.

Lemma first_speaker (cat : voice_catalog) (l : pystr)
    (speakers : list (pystr * pystr)) :
  catalog_ok cat → assoc l cat = Some speakers →
  ∃ name voice rest,
    speakers = (name, voice) :: rest ∧ In voice (catalog_voices cat).
Proof.
  intros [Hne _] Hl. apply assoc_In in Hl.
  destruct speakers as [|[name voice] rest].
  - rewrite Forall_forall in Hne. by destruct (Hne _ (proj2 (list_elem_of_In _ _) Hl)).
  - exists name, voice, rest. split; [done|].
    eapply catalog_voices_In; [done|]. by left.
Qed.

(** On a catalog where every language has a speaker and English is a
    language, resolution answers for every hashable key. *)
Lemma resolve_voice_defined (cat : voice_catalog) (language : pyval) :
  catalog_ok cat → hashable language = true →
  ∃ name voice,
    resolve_voice cat language = Return (name, voice)
    ∧ In voice (catalog_voices cat).
Proof.
  intros Hok Hh. pose proof Hok as [_ [english Heng]].
  assert (∀ l speakers, assoc l cat = Some speakers →
            ∃ name voice,
              (speakers ← catalog_getitem cat (PStr l);
               speaker_name ← first_key speakers;
               match assoc speaker_name speakers with
               | Some voice => Return (speaker_name, voice)
               | None => Raise (Exn KeyError (py "'" ++ speaker_name ++ py "'"))
               end) = Return (name, voice)
              ∧ In voice (catalog_voices cat)) as Hfound.
  { intros l speakers Hl.
    destruct (first_speaker _ _ _ Hok Hl) as (name & voice & rest & -> & Hin).
    exists name, voice. split; [|done].
    simpl. rewrite Hl. simpl. by rewrite str_eqb_refl. }
  unfold resolve_voice.
  destruct language as [| | | |l| |]; try discriminate; simpl;
    try (by apply (Hfound _ _ Heng)).
  destruct (assoc l cat) as [speakers|] eqn:Hl; simpl.
  - by apply (Hfound _ _ Hl).
  - by apply (Hfound _ _ Heng).
Qed.

(** An unknown language name resolves as English does. *)
Lemma resolve_voice_fallback (cat : voice_catalog) (l : pystr) :
  assoc l cat = None →
  resolve_voice cat (PStr l) = resolve_voice cat (PStr (py "English")).
Proof.
  intros Hl. unfold resolve_voice, catalog_contains. rewrite Hl.
  destruct (assoc (py "English") cat) eqn:He; simpl; by rewrite ?He.
Qed.

Lemma language_dict_ok : catalog_ok language_dict.
Proof.
  split.
  - repeat constructor; discriminate.
  - by eexists.
Qed.

Lemma generate_tts_audio_logs (x : externals) (text language : pyval)
    (w : world) (name voice : pystr) :
  resolve_voice (catalog w) language = Return (name, voice) →
  In (EdgeCommunicate text voice)
     (backend_log (generate_tts_audio x text language w).2).
Proof.
  intros Hr. unfold generate_tts_audio. unfold_monad. rewrite Hr. simpl.
  destruct (tempfile_fault x); simpl.
  - apply in_app_iff. right. by left.
  - destruct (edge_tts_save x); simpl;
      rewrite !in_app_iff; left; right; by left.
Qed.

Lemma tts_reaches_synthesis (x : externals) (d : list (pystr * pyval))
    (text : pystr) (w : world) :
  assoc (py "text") d = Some (PStr text) → strip text ≠ [] →
  backend_log (text_to_speech x (TtsRequest (Return (PDict d))) w).2
  = backend_log
      (generate_tts_audio x (PStr text)
         (from_option id (PStr (py "English")) (assoc (py "language") d)) w).2.
Proof.
  intros Ht Hs. unfold text_to_speech. unfold_monad. simpl.
  unfold text_missing. rewrite (assoc_cons_truthy _ _ _ Ht). simpl.
  rewrite Ht. simpl. destruct (strip text) as [|c s]; [done|].
  destruct (generate_tts_audio _ _ _ w) as [[p|e] w']; simpl; [|done].
  destruct (fs w' !! p); [|done]. by destruct (send_file_fault x).
Qed.

(** C2. Voice resolution is total on language names: for every string,
    known to the catalog or not, [resolve_voice] returns a voice identifier
    that the catalog holds and raises nothing; an unknown name such as
    Klingon gets the voice of the first speaker of English,
    en-US-JennyNeural. The handler reads no speaker from the request, so
    whatever speaker entry the body [d] carries, or none, the voice handed
    to the synthesis backend is the resolved one. *)
Theorem voice_resolution_total (language : pystr) :
  resolve_voice language_dict (PStr (py "Klingon"))
    = Return (py "Jenny", py "en-US-JennyNeural")
  ∧ first_key (from_option id [] (assoc (py "English") language_dict))
    = Return (py "Jenny")
  ∧ ∃ name voice,
      resolve_voice language_dict (PStr language) = Return (name, voice)
      ∧ In voice (catalog_voices language_dict)
      ∧ (assoc language language_dict = None → voice = py "en-US-JennyNeural")
      ∧ ∀ (x : externals) (d : list (pystr * pyval)) (text : pystr) (w : world),
          catalog w = language_dict →
          assoc (py "text") d = Some (PStr text) →
          strip text ≠ [] →
          assoc (py "language") d = Some (PStr language) →
          In (EdgeCommunicate (PStr text) voice)
             (backend_log (text_to_speech x (TtsRequest (Return (PDict d))) w).2).
Proof.
  split; [done|]. split; [done|].
  destruct (resolve_voice_defined language_dict (PStr language)
              language_dict_ok eq_refl) as (name & voice & Hr & Hin).
  exists name, voice. repeat split; try done.
  - intros Hnone. rewrite (resolve_voice_fallback _ _ Hnone) in Hr.
    vm_compute in Hr. by injection Hr as _ <-.
  - intros x d text w Hcat Ht Hs Hl.
    rewrite (tts_reaches_synthesis _ _ _ _ Ht Hs), Hl. simpl.
    apply (generate_tts_audio_logs _ _ _ _ name). by rewrite Hcat.
Qed.

(** ** The catalog is only read *)

Lemma keeps_ret {A : Type} (a : A) : keeps_catalog (mret a).
Proof. by intros w. Qed.

Lemma keeps_lift {A : Type} (o : outcome A) : keeps_catalog (lift o).
Proof. by intros w. Qed.

Lemma keeps_bind {A B : Type} (m : M A) (f : A → M B) :
  keeps_catalog m → (∀ a, keeps_catalog (f a)) → keeps_catalog (m ≫= f).
Proof.
  intros Hm Hf w. unfold mbind, M_bind. specialize (Hm w).
  destruct (m w) as [[a|e] w']; simpl in *; [|done].
  by rewrite Hf.
Qed.

Lemma keeps_try_except {A : Type} (m : M A) (h : exn → M A) :
  keeps_catalog m → (∀ e, keeps_catalog (h e)) → keeps_catalog (try_except m h).
Proof.
  intros Hm Hh w. unfold try_except. specialize (Hm w).
  destruct (m w) as [[a|e] w']; simpl in *; [done|].
  by rewrite Hh.
Qed.

Lemma keeps_try_finally {A : Type} (m : M A) (final : M unit) :
  keeps_catalog m → keeps_catalog final → keeps_catalog (try_finally m final).
Proof.
  intros Hm Hf w. unfold try_finally. specialize (Hm w).
  destruct (m w) as [r w']. specialize (Hf w').
  destruct (final w') as [[[]|e] w'']; simpl in *; congruence.
Qed.

Lemma keeps_read_catalog :
  keeps_catalog (λ w, (Return (catalog w), w)).
Proof. by intros w. Qed.

Lemma keeps_raise_if (fault : option exn) : keeps_catalog (raise_if fault).
Proof. intros w. unfold raise_if. by destruct fault. Qed.

Lemma keeps_log_call (c : backend_call) : keeps_catalog (log_call c).
Proof. by intros w. Qed.

Lemma keeps_NamedTemporaryFile (x : externals) (sfx : pystr) :
  keeps_catalog (NamedTemporaryFile x sfx).
Proof. intros w. unfold NamedTemporaryFile. by destruct (tempfile_fault x). Qed.

Lemma keeps_write_file (name : N) (bytes : list Byte.byte) :
  keeps_catalog (write_file name bytes).
Proof. by intros w. Qed.

Lemma keeps_py_open (name : N) : keeps_catalog (py_open name).
Proof. intros w. unfold py_open. by destruct (fs w !! name). Qed.

Lemma keeps_os_path_exists (name : N) : keeps_catalog (os_path_exists name).
Proof. by intros w. Qed.

Lemma keeps_os_unlink (name : N) : keeps_catalog (os_unlink name).
Proof. intros w. unfold os_unlink. by destruct (fs w !! name). Qed.

Lemma keeps_send_file (x : externals) (name : N) :
  keeps_catalog (send_file x name).
Proof.
  intros w. unfold send_file.
  destruct (fs w !! name); [|done]. by destruct (send_file_fault x).
Qed.

#[global] Hint Resolve keeps_ret keeps_lift keeps_read_catalog keeps_raise_if
  keeps_log_call keeps_NamedTemporaryFile keeps_write_file keeps_py_open
  keeps_os_path_exists keeps_os_unlink keeps_send_file : keeps.

(** Splits a computation along its binds, handlers and branches. *)
Ltac keeps_step :=
  first
    [ apply keeps_bind; [|intros ?]
    | apply keeps_try_except; [|intros ?]
    | apply keeps_try_finally
    | solve [auto with keeps]
    | match goal with
      | |- keeps_catalog (match ?t with _ => _ end) => destruct t
      | |- keeps_catalog (let '(_, _) := ?t in _) => destruct t
      end ].

Lemma keeps_handle_request (body : M response) (on_error : exn → response)
    (w : world) :
  keeps_catalog body → catalog (handle_request body on_error w).2 = catalog w.
Proof.
  intros Hb. unfold handle_request. specialize (Hb w).
  by destruct (body w) as [[r|e] w'].
Qed.

Lemma keeps_generate_tts_audio (x : externals) (text language : pyval) :
  keeps_catalog (generate_tts_audio x text language).
Proof. unfold generate_tts_audio. repeat keeps_step. Qed.

Lemma text_to_speech_catalog (x : externals) (request : tts_request)
    (w : world) :
  catalog (text_to_speech x request w).2 = catalog w.
Proof.
  apply keeps_handle_request. pose proof keeps_generate_tts_audio.
  repeat keeps_step.
Qed.

Section Gateway.

Variable py_str : pyval → pystr.

Lemma transcribe_catalog (x : externals) (r : transcribe_request) (w : world) :
  catalog (transcribe py_str x r w).2 = catalog w.
Proof.
  apply keeps_handle_request. unfold upload_save, call_replicate.
  repeat keeps_step.
Qed.

Lemma serve_catalog (x : externals) (req : request) (w : world) :
  catalog (serve py_str x req w).2 = catalog w.
Proof.
  destruct req; simpl;
    [done | apply transcribe_catalog | apply text_to_speech_catalog].
Qed.

(** C8. In the catalog every language has at least one speaker, so the
    first speaker is defined for each of them, English included; and no
    request changes the catalog: every route leaves it as it was, hence
    it is [language_dict] in every world the process reaches. *)
Theorem catalog_invariant :
  Forall (λ entry : pystr * list (pystr * pystr), entry.2 ≠ []) language_dict
  ∧ (∀ (l : pystr) (speakers : list (pystr * pystr)),
       assoc l language_dict = Some speakers →
       ∃ name, first_key speakers = Return name)
  ∧ (∃ speakers name,
       assoc (py "English") language_dict = Some speakers
       ∧ first_key speakers = Return name)
  ∧ (∀ (x : externals) (req : request) (w : world),
       catalog (serve py_str x req w).2 = catalog w)
  ∧ (∀ w : world, reachable py_str w → catalog w = language_dict).
Proof.
  pose proof language_dict_ok as Hok.
  split; [apply Hok|]. split; [|split; [|split]].
  - intros l speakers Hl.
    destruct (first_speaker _ _ _ Hok Hl) as (name & voice & rest & -> & _).
    by exists name.
  - by eexists _, _.
  - apply serve_catalog.
  - induction 1 as [|w x req Hw IH]; [done|].
    by rewrite serve_catalog.
Qed.

End Gateway.

(** ** Running [transcribe] *)

Lemma fresh_name_free (w : world) : fs w !! fresh (dom (fs w)) = None.
Proof. apply not_elem_of_dom, is_fresh. Qed.

(** Creating, writing and unlinking a file of a new name gives back the
    files there were. *)
Lemma create_write_unlink (files : gmap N tmpfile) (name : N) (a b : tmpfile) :
  files !! name = None →
  delete name (<[name := b]> (<[name := a]> files)) = files.
Proof.
  intros Hfree. rewrite delete_insert_eq, delete_insert_eq.
  by apply delete_id.
Qed.

Lemma str_eqb_nil (s : pystr) : s ≠ [] → str_eqb s [] = false.
Proof. intros Hs. unfold str_eqb. by apply bool_decide_eq_false. Qed.

Section TranscribeRuns.

Variable py_str : pyval → pystr.

Lemma transcribe_dispatched (x : externals) (r : transcribe_request)
    (w : world) :
  dispatched x r →
  transcribe py_str x r w =
    (match replicate_run x with
     | Return output =>
         Response (jsonify [ (py "transcription", extract_transcription py_str output);
                             (py "language", extract_language output) ]) 200
     | Raise e =>
         Response (error_body (py "Transcription failed: " ++ message e)) 500
     end,
     World (fs w) (catalog w) (backend_log w ++ [whisper_call w])).
Proof.
  intros ((u & Hfile & Hname) & Htmp & Hsave).
  pose proof (fresh_name_free w) as Hfree.
  unfold transcribe. rewrite Hfile, (str_eqb_nil _ Hname).
  unfold_monad. rewrite Htmp, Hsave. simpl.
  rewrite !lookup_insert_eq. simpl.
  destruct (replicate_run x) as [output|e]; simpl;
    repeat (rewrite lookup_insert_eq; simpl);
    unfold whisper_call; by rewrite create_write_unlink.
Qed.

(** C4. When the backend call raises, whatever the fault, the handler
    answers 500 with an error body that carries the fault's message as it
    is, after the prefix the handler puts before it; and in the world the
    response is returned in, the temporary audio file is gone: the files
    are those there were before the request. *)
Theorem backend_fault_surfaces (x : externals) (r : transcribe_request)
    (w : world) (e : exn) :
  dispatched x r →
  replicate_run x = Raise e →
  (transcribe py_str x r w).1
    = Response (error_body (py "Transcription failed: " ++ message e)) 500
  ∧ fs (transcribe py_str x r w).2 !! fresh (dom (fs w)) = None
  ∧ fs (transcribe py_str x r w).2 = fs w
  ∧ backend_log (transcribe py_str x r w).2 = backend_log w ++ [whisper_call w].
Proof.
  intros Hd He. rewrite (transcribe_dispatched _ _ _ Hd), He. simpl.
  repeat split. apply fresh_name_free.
Qed.

(** C5. Whatever the backend returns, the handler answers 200 with a body
    of two fields. The transcription is the value under "transcription"
    when the output is a dict that has it, and then the language is the
    value under "language"; it is the output itself when that is a
    string; and it is [str] of the output for every other shape. A
    backend that returns
    {"transcription": "hello world", "language": "en"} gets exactly that
    body back. *)
Theorem output_shapes_mapped (x : externals) (r : transcribe_request)
    (w : world) (output : pyval) :
  dispatched x r →
  replicate_run x = Return output →
  ∃ transcription language,
    (transcribe py_str x r w).1
      = Response (jsonify [ (py "transcription", transcription);
                            (py "language", language) ]) 200
    ∧ (∀ d v, output = PDict d → assoc (py "transcription") d = Some v →
         transcription = v
         ∧ language = from_option id PNone (assoc (py "language") d))
    ∧ (∀ s, output = PStr s → transcription = PStr s)
    ∧ ((∀ d, output ≠ PDict d) → (∀ s, output ≠ PStr s) →
         transcription = PStr (py_str output))
    ∧ (output = PDict [ (py "transcription", PStr (py "hello world"));
                        (py "language", PStr (py "en")) ] →
         (transcribe py_str x r w).1
           = Response (jsonify [ (py "transcription", PStr (py "hello world"));
                                 (py "language", PStr (py "en")) ]) 200).
Proof.
  intros Hd Ho. rewrite (transcribe_dispatched _ _ _ Hd), Ho. simpl.
  eexists _, _. split; [done|]. split; [|split; [|split]].
  - intros d v -> Hv. simpl. by rewrite Hv.
  - by intros s ->.
  - intros Hnd Hns. destruct output; try done.
    + by destruct (Hns s).
    + by destruct (Hnd d).
  - by intros ->.
Qed.

(** C10. A dict without a "transcription" key is answered with [str] of
    the whole dict as the transcription, and the language is still the
    value under "language", or null when there is none; an output that
    is not a dict always gets a null language. *)
Theorem language_field_of_output (x : externals) (r : transcribe_request)
    (w : world) (output : pyval) :
  dispatched x r →
  replicate_run x = Return output →
  (∀ d, output = PDict d → assoc (py "transcription") d = None →
     (transcribe py_str x r w).1
       = Response
           (jsonify [ (py "transcription", PStr (py_str (PDict d)));
                      (py "language",
                       match assoc (py "language") d with
                       | Some l => l
                       | None => PNone
                       end) ]) 200)
  ∧ ((∀ d, output ≠ PDict d) →
     ∃ transcription,
       (transcribe py_str x r w).1
         = Response (jsonify [ (py "transcription", transcription);
                               (py "language", PNone) ]) 200).
Proof.
  intros Hd Ho. rewrite (transcribe_dispatched _ _ _ Hd), Ho. simpl. split.
  - intros d -> Hnone. simpl. rewrite Hnone. simpl.
    by destruct (assoc (py "language") d).
  - intros Hnd. eexists.
    destruct output; try done. by destruct (Hnd d).
Qed.

End TranscribeRuns.

(** ** Validation *)

Section Validation.

Variable py_str : pyval → pystr.

(** The rejections the handlers do make. A transcription request without
    a file field, or whose file has an empty name, and a synthesis request
    whose decoded body is falsy or is an object without text, or whose
    text is empty or white space only, are each answered 400 with an error
    message; the world is left exactly as it was, so no backend was called
    and no temporary file was created. Bodies without text that are not
    covered here are the subject of [missing_text_answered_500]. *)
Theorem validation_rejects_empties (x : externals) (w : world) :
  (∀ r : transcribe_request,
     assoc (py "file") (files r) = None
     ∨ (∃ audio_file, assoc (py "file") (files r) = Some audio_file
                      ∧ filename audio_file = []) →
     ∃ msg, transcribe py_str x r w = (Response (error_body msg) 400, w))
  ∧ (∀ data : pyval,
       truthy data = false
       ∨ (∃ d, data = PDict d ∧ assoc (py "text") d = None)
       ∨ (∃ d text, data = PDict d
                    ∧ assoc (py "text") d = Some (PStr text)
                    ∧ forallb py_isspace text = true) →
       ∃ msg, text_to_speech x (TtsRequest (Return data)) w
              = (Response (error_body msg) 400, w)).
Proof.
  split.
  - intros r [Hnone|(u & Hfile & Hname)]; unfold transcribe.
    + rewrite Hnone. by eexists.
    + rewrite Hfile, Hname. by eexists.
  - intros data Hdata. unfold text_to_speech. unfold_monad. simpl.
    unfold text_missing.
    destruct Hdata as [Hfalsy|[(d & -> & Hnone)|(d & text & -> & Ht & Hsp)]].
    + rewrite Hfalsy. by eexists.
    + destruct (truthy (PDict d)); simpl; [rewrite Hnone|]; by eexists.
    + rewrite (assoc_cons_truthy _ _ _ Ht). simpl. rewrite Ht. simpl.
      apply strip_nil in Hsp. rewrite Hsp. by eexists.
Qed.

End Validation.

(** C9. A text that is present in the body but is not a string has no
    [strip]: the AttributeError is caught by the handler's last clause,
    the answer is 500 with a "TTS generation failed" message and not 400,
    and the world is unchanged, so no backend was called. *)
Theorem non_string_text_is_500 (x : externals) (d : list (pystr * pyval))
    (text : pyval) (w : world) :
  assoc (py "text") d = Some text →
  (∀ s, text ≠ PStr s) →
  text_to_speech x (TtsRequest (Return (PDict d))) w
  = (Response
       (error_body (py "TTS generation failed: "
                      ++ py "'" ++ type_name text
                      ++ py "' object has no attribute 'strip'")) 500,
     w).
Proof.
  intros Ht Hns. unfold text_to_speech. unfold_monad. simpl.
  unfold text_missing. rewrite (assoc_cons_truthy _ _ _ Ht). simpl.
  rewrite Ht. simpl.
  destruct text; try done. by destruct (Hns s).
Qed.

(** ** What a response can be *)

(** When [generate_tts_audio] returns, nothing had failed and the audio is
    in a file that did not exist before. *)
Lemma generate_tts_audio_returns (x : externals) (text language : pyval)
    (w w' : world) (name : N) :
  generate_tts_audio x text language w = (Return name, w') →
  name = fresh (dom (fs w))
  ∧ tempfile_fault x = None
  ∧ ∃ audio, edge_tts_save x = Return audio
             ∧ fs w' !! name = Some (TmpFile (py ".mp3") audio).
Proof.
  unfold generate_tts_audio. unfold_monad.
  destruct (resolve_voice (catalog w) language) as [[speaker voice]|e];
    simpl; [|done].
  destruct (tempfile_fault x); simpl; [done|].
  destruct (edge_tts_save x) as [audio|e]; simpl; [|done].
  intros [= <- <-]. simpl. repeat split. exists audio. split; [done|].
  by rewrite !lookup_insert_eq.
Qed.

(** Every run of the synthesis handler: either nothing failed, the answer
    is the audio file with status 200 and that file, new in this request,
    is still there afterwards; or the answer is an error response. *)
Lemma text_to_speech_cases (x : externals) (r : tts_request) (w : world) :
  (status (text_to_speech x r w).1 = 200
   ∧ tts_clean x r
   ∧ ∃ name audio,
       resp_body (text_to_speech x r w).1
         = FileBody name (py "audio/mpeg") (py "speech.mp3")
       ∧ fs w !! name = None
       ∧ fs (text_to_speech x r w).2 !! name = Some (TmpFile (py ".mp3") audio))
  ∨ error_response (text_to_speech x r w).1.
Proof.
  unfold text_to_speech, error_response, error_body, jsonify. unfold_monad.
  destruct r as [[data|e]]; cbn.
  2: { right. eauto. }
  destruct (text_missing data) as [[|]|e]; cbn.
  1, 3: right; eauto.
  destruct (py_getitem data (py "text")) as [text|e] eqn:Ht; cbn.
  2: { right. eauto. }
  destruct (py_get data (py "language") (PStr (py "English"))) as [language|e];
    cbn.
  2: { right. eauto. }
  destruct text as [| | | |text| |]; cbn; try solve [right; eauto].
  destruct (strip text) as [|c s] eqn:Hs; cbn.
  { right. eauto. }
  destruct (generate_tts_audio x (PStr text) language w) as [[name|e] w'] eqn:Hg;
    cbn.
  2: { right. eauto. }
  apply generate_tts_audio_returns in Hg as (-> & Htmp & audio & Hsave & Hfile).
  rewrite Hfile.
  destruct (send_file_fault x) as [e|] eqn:Hsend; cbn.
  { right. eauto. }
  left. split; [done|]. split.
  - unfold tts_clean. split; [|by eauto].
    exists data, text. rewrite Hs. by cbn.
  - eexists _, audio. split; [done|]. split; [|done].
    apply not_elem_of_dom, is_fresh.
Qed.

Section ErrorShape.

Variable py_str : pyval → pystr.

Lemma transcribe_outcomes (x : externals) (r : transcribe_request) (w : world) :
  (status (transcribe py_str x r w).1 = 200
   ∧ dispatched x r
   ∧ ∃ output, replicate_run x = Return output)
  ∨ error_response (transcribe py_str x r w).1.
Proof.
  destruct (assoc (py "file") (files r)) as [u|] eqn:Hfile.
  2: { right. unfold transcribe. rewrite Hfile. by eexists; eauto. }
  destruct (str_eqb (filename u) []) eqn:Hname.
  { right. unfold transcribe. rewrite Hfile, Hname. by eexists; eauto. }
  assert (filename u ≠ []) as Hne.
  { intros Heq. rewrite Heq in Hname. done. }
  destruct (tempfile_fault x) as [e|] eqn:Htmp.
  { right. unfold transcribe. rewrite Hfile, Hname. unfold_monad.
    rewrite Htmp. by eexists; eauto. }
  destruct (upload_save_fault x) as [e|] eqn:Hsave.
  { right. unfold transcribe. rewrite Hfile, Hname. unfold_monad.
    rewrite Htmp, Hsave. by eexists; eauto. }
  assert (dispatched x r) as Hd by (unfold dispatched; eauto).
  rewrite (transcribe_dispatched _ _ _ _ Hd).
  destruct (replicate_run x) as [output|e]; simpl.
  - left. eauto.
  - right. by eexists; eauto.
Qed.

(** C6. Neither handler lets an exception out: each returns a response on
    every input, whatever the collaborators do. The response is the
    success of the route, with status 200, only when nothing failed;
    on every other path (rejected input, a fault of a backend, any other
    exception) it is a JSON object with a string [error] field and status
    400 or 500. *)
Theorem uniform_error_shape (x : externals) (w : world) :
  (∀ r : transcribe_request,
     (status (transcribe py_str x r w).1 = 200
      ∧ dispatched x r
      ∧ ∃ output, replicate_run x = Return output)
     ∨ error_response (transcribe py_str x r w).1)
  ∧ (∀ r : tts_request,
       (status (text_to_speech x r w).1 = 200
        ∧ (∃ name, resp_body (text_to_speech x r w).1
                   = FileBody name (py "audio/mpeg") (py "speech.mp3"))
        ∧ tts_clean x r)
       ∨ error_response (text_to_speech x r w).1).
Proof.
  split; intros r; [apply transcribe_outcomes|].
  destruct (text_to_speech_cases x r w)
    as [(Hst & Hclean & name & audio & Hbody & _)|Herr]; [left|by right].
  split; [done|]. split; [by exists name|done].
Qed.

End ErrorShape.

(** ** The decoding configuration *)

Section Configuration.

Variable py_str : pyval → pystr.

(** A request calls the transcription backend once, when it gets that
    far, and not at all otherwise. *)
Lemma transcribe_log (x : externals) (r : transcribe_request) (w : world) :
  backend_log (transcribe py_str x r w).2 = backend_log w
  ∨ backend_log (transcribe py_str x r w).2 = backend_log w ++ [whisper_call w].
Proof.
  destruct (assoc (py "file") (files r)) as [u|] eqn:Hfile.
  2: { left. unfold transcribe. by rewrite Hfile. }
  destruct (str_eqb (filename u) []) eqn:Hname.
  { left. unfold transcribe. by rewrite Hfile, Hname. }
  assert (filename u ≠ []) as Hne.
  { intros Heq. rewrite Heq in Hname. done. }
  destruct (tempfile_fault x) as [e|] eqn:Htmp.
  { left. unfold transcribe. rewrite Hfile, Hname. unfold_monad.
    by rewrite Htmp. }
  destruct (upload_save_fault x) as [e|] eqn:Hsave.
  { left. unfold transcribe. rewrite Hfile, Hname. unfold_monad.
    by rewrite Htmp, Hsave. }
  right. rewrite transcribe_dispatched; [done|].
  unfold dispatched. eauto.
Qed.

(** C7, as amended. Every call of the transcription backend passes, next
    to the audio file of the request, the same options: model "large-v3",
    language "auto", no translation, temperature 0, suppress_tokens "-1",
    logprob_threshold -1.0, no_speech_threshold 0.6 and
    condition_on_previous_text set, whatever the request. *)
Theorem fixed_decoding_configuration (x : externals) (r : transcribe_request)
    (w : world) (c : backend_call) :
  In c (backend_log (transcribe py_str x r w).2) →
  In c (backend_log w)
  ∨ ∃ name : N,
      c = ReplicateRun
            (py "openai/whisper:4d50797290df275329f202e48c76360b3f22b08d28c196cbc54600319435f8d2")
            [ (py "audio", AFile name);
              (py "model", AVal (PStr (py "large-v3")));
              (py "language", AVal (PStr (py "auto")));
              (py "translate", AVal (PBool false));
              (py "temperature", AVal (PInt 0));
              (py "suppress_tokens", AVal (PStr (py "-1")));
              (py "logprob_threshold",
               AVal (PFloat (S754_finite true 4503599627370496 (-52))));
              (py "no_speech_threshold",
               AVal (PFloat (S754_finite false 5404319552844595 (-53))));
              (py "condition_on_previous_text", AVal (PBool true)) ].
Proof.
  destruct (transcribe_log x r w) as [->| ->]; [by left|].
  rewrite in_app_iff. intros [Hold|[<-|[]]]; [by left|].
  right. by eexists.
Qed.

End Configuration.

(** C7, as stated, fails: the model option of the call is "large-v3", not
    "large". *)
Lemma model_variant_is_not_large :
  ¬ (∀ (x : externals) (r : transcribe_request) (w : world) (c : backend_call),
       In c (backend_log (transcribe str_placeholder x r w).2) →
       ¬ In c (backend_log w) →
       model_of c = Some (AVal (PStr (py "large")))).
Proof.
  intros Hclaim.
  specialize (Hclaim backends_up upload_request startup (whisper_call startup)).
  assert (model_of (whisper_call startup) = Some (AVal (PStr (py "large"))))
    as Hmodel.
  { apply Hclaim; [|by intros []]. vm_compute. by left. }
  vm_compute in Hmodel. discriminate.
Qed.

(** ** Temporary files *)

Section Cleanup.

Variable py_str : pyval → pystr.

(** Once the upload is written, the transcription handler removes its
    temporary file on both branches. *)
Lemma transcribe_removes_upload (x : externals) (r : transcribe_request)
    (w : world) :
  dispatched x r → fs (transcribe py_str x r w).2 = fs w.
Proof. intros Hd. by rewrite transcribe_dispatched. Qed.

(** The synthesis handler never removes the file it creates: after every
    successful request the audio file is still there. *)
Lemma synthesis_file_survives (x : externals) (r : tts_request) (w : world) :
  status (text_to_speech x r w).1 = 200 →
  ∃ name audio,
    fs w !! name = None
    ∧ fs (text_to_speech x r w).2 !! name = Some (TmpFile (py ".mp3") audio).
Proof.
  intros Hst.
  destruct (text_to_speech_cases x r w)
    as [(_ & _ & name & audio & _ & Hnew & Hleft)|(msg & _ & [H4|H5])].
  - by exists name, audio.
  - rewrite H4 in Hst. discriminate.
  - rewrite H5 in Hst. discriminate.
Qed.

End Cleanup.

(** C1 fails on the code. A synthesis request that succeeds leaves its
    .mp3 file behind, and a transcription request whose upload cannot be
    written leaves its .webm file behind: in both worlds the file created
    by the request exists after the response. *)
Theorem temporary_files_left_behind :
  (status (text_to_speech backends_up say_hello startup).1 = 200
   ∧ fs startup !! 0%N = None
   ∧ fs (text_to_speech backends_up say_hello startup).2 !! 0%N
     = Some (TmpFile (py ".mp3") [Byte.xff; Byte.xfb]))
  ∧ (status (transcribe str_placeholder upload_unwritable upload_request startup).1
     = 500
     ∧ fs (transcribe str_placeholder upload_unwritable upload_request startup).2
         !! 0%N
       = Some (TmpFile (py ".webm") [])).
Proof. by vm_compute. Qed.

(** * The theorems at sample requests *)

Lemma upload_request_dispatched (x : externals) :
  tempfile_fault x = None → upload_save_fault x = None →
  dispatched x upload_request.
Proof.
  intros Htmp Hsave. split; [|done].
  exists clip. split; [reflexivity|]. intros H. vm_compute in H. discriminate.
Defined.

(** A request for Klingon, naming a speaker the catalog does not know, is
    spoken by Jenny. *)
Lemma voice_resolution_total_witness :
  In (EdgeCommunicate (PStr (py "hello")) (py "en-US-JennyNeural"))
     (backend_log
        (text_to_speech backends_up
           (TtsRequest (Return (PDict say_hello_in_klingon))) startup).2).
Proof.
  destruct (voice_resolution_total (py "Klingon"))
    as (_ & _ & name & voice & _ & _ & Hfallback & Hrequest).
  rewrite <- (Hfallback eq_refl).
  apply Hrequest; [reflexivity | reflexivity | | reflexivity].
  intros H. vm_compute in H. discriminate.
Defined.

Lemma catalog_invariant_witness :
  reachable str_placeholder
    (serve str_placeholder backends_up (PostTts say_hello) startup).2
  ∧ catalog (serve str_placeholder backends_up (PostTts say_hello) startup).2
    = language_dict.
Proof.
  assert (reachable str_placeholder
            (serve str_placeholder backends_up (PostTts say_hello) startup).2)
    as Hreach by (apply reachable_serve, reachable_startup).
  split; [exact Hreach|].
  exact (proj2 (proj2 (proj2 (proj2 (catalog_invariant str_placeholder))))
           _ Hreach).
Defined.

Lemma validation_rejects_empties_witness :
  (∃ msg, transcribe str_placeholder backends_up (TranscribeRequest []) startup
          = (Response (error_body msg) 400, startup))
  ∧ (∃ msg, text_to_speech backends_up
              (TtsRequest (Return (PDict [(py "text", PStr (py "  "))]))) startup
            = (Response (error_body msg) 400, startup)).
Proof.
  destruct (validation_rejects_empties str_placeholder backends_up startup)
    as [Hfile Htext].
  split.
  - apply Hfile. left. reflexivity.
  - apply Htext. right. right.
    exists [(py "text", PStr (py "  "))], (py "  ").
    split; [reflexivity|]. split; reflexivity.
Defined.

Lemma backend_fault_surfaces_witness :
  replicate_run replicate_down = Raise quota_fault
  ∧ (transcribe str_placeholder replicate_down upload_request startup).1
    = Response
        (error_body (py "Transcription failed: You have reached your quota")) 500
  ∧ fs (transcribe str_placeholder replicate_down upload_request startup).2 = ∅.
Proof.
  pose proof (backend_fault_surfaces str_placeholder replicate_down
                upload_request startup quota_fault
                (upload_request_dispatched replicate_down eq_refl eq_refl)
                eq_refl) as (Hresp & _ & Hfs & _).
  split; [reflexivity|]. split; [exact Hresp | exact Hfs].
Defined.

Lemma output_shapes_mapped_witness :
  (transcribe str_placeholder backends_up upload_request startup).1
  = Response (jsonify [ (py "transcription", PStr (py "hello world"));
                        (py "language", PStr (py "en")) ]) 200.
Proof.
  destruct (output_shapes_mapped str_placeholder backends_up upload_request
              startup hello_output
              (upload_request_dispatched backends_up eq_refl eq_refl) eq_refl)
    as (t & l & _ & _ & _ & _ & Hhello).
  apply Hhello. reflexivity.
Defined.

Lemma language_field_of_output_witness :
  (transcribe str_placeholder language_only upload_request startup).1
  = Response (jsonify [ (py "transcription", PStr (py "<object>"));
                        (py "language", PStr (py "en")) ]) 200.
Proof.
  apply (proj1 (language_field_of_output str_placeholder language_only
                  upload_request startup
                  (PDict [(py "language", PStr (py "en"))])
                  (upload_request_dispatched language_only eq_refl eq_refl)
                  eq_refl)
           [(py "language", PStr (py "en"))] eq_refl eq_refl).
Defined.

Lemma non_string_text_is_500_witness :
  text_to_speech backends_up
    (TtsRequest (Return (PDict [(py "text", PInt 42)]))) startup
  = (Response
       (error_body
          (py "TTS generation failed: 'int' object has no attribute 'strip'"))
       500,
     startup).
Proof.
  apply (non_string_text_is_500 backends_up [(py "text", PInt 42)] (PInt 42)
           startup eq_refl).
  intros s H. discriminate.
Defined.

Lemma fixed_decoding_configuration_witness :
  ∃ name : N,
    whisper_call startup
    = ReplicateRun whisper_version ((py "audio", AFile name) :: whisper_config).
Proof.
  destruct (fixed_decoding_configuration str_placeholder backends_up
              upload_request startup (whisper_call startup))
    as [[]|[name Hcall]].
  - vm_compute. left. reflexivity.
  - exists name. exact Hcall.
Defined.

(** * Further properties of the handlers *)

(** ** Running [text_to_speech] *)

Lemma generate_tts_audio_run (x : externals) (text : pystr) (language : pyval)
    (w : world) :
  handle_request
    (try_finally
       (audio_file_path ← generate_tts_audio x (PStr text) language;
        send_file x audio_file_path)
       (mret ()))
    tts_failed w
  = synthesis_run x text language w.
Proof.
  unfold synthesis_run, generate_tts_audio. unfold_monad.
  destruct (resolve_voice (catalog w) language) as [[speaker voice]|e]; cbn;
    [|done].
  destruct (tempfile_fault x); cbn; [done|].
  destruct (edge_tts_save x) as [audio|e]; cbn.
  - rewrite !lookup_insert_eq. cbn. rewrite insert_insert_eq.
    rewrite <- !(assoc_L (++)). by destruct (send_file_fault x).
  - by rewrite <- !(assoc_L (++)).
Qed.

(** A body that is a dict with a string text that does not strip to
    nothing is synthesised, in the language the body names, or in English
    when it names none. *)
Lemma text_to_speech_run (x : externals) (d : list (pystr * pyval))
    (text : pystr) (w : world) :
  assoc (py "text") d = Some (PStr text) →
  strip text ≠ [] →
  text_to_speech x (TtsRequest (Return (PDict d))) w
  = synthesis_run x text
      (from_option id (PStr (py "English")) (assoc (py "language") d)) w.
Proof.
  intros Ht Hs. rewrite <- generate_tts_audio_run.
  unfold text_to_speech. unfold_monad. cbn.
  unfold text_missing. rewrite (assoc_cons_truthy _ _ _ Ht). cbn.
  rewrite Ht. cbn. by destruct (strip text).
Qed.

Lemma synthesis_run_status (x : externals) (text : pystr) (language : pyval)
    (w : world) :
  status (synthesis_run x text language w).1 = 200
  ∨ status (synthesis_run x text language w).1 = 500.
Proof.
  unfold synthesis_run.
  destruct (resolve_voice (catalog w) language) as [[speaker voice]|e];
    [|by right].
  destruct (tempfile_fault x); [by right|].
  destruct (edge_tts_save x); [|by right].
  destruct (send_file_fault x); [by right|by left].
Qed.

Lemma text_missing_dict (d : list (pystr * pyval)) :
  text_missing (PDict d)
  = Return (negb (bool_decide (is_Some (assoc (py "text") d)))).
Proof. by destruct d. Qed.

(** Every request to [/tts] either is stopped before synthesis, and then
    the world is not touched and the answer is an error, or carries a dict
    with a string text that does not strip to nothing. *)
Lemma text_to_speech_stopped_or_run (x : externals) (r : tts_request)
    (w : world) :
  ((text_to_speech x r w).2 = w ∧ error_response (text_to_speech x r w).1)
  ∨ ∃ d text, r = TtsRequest (Return (PDict d))
              ∧ assoc (py "text") d = Some (PStr text)
              ∧ strip text ≠ [].
Proof.
  destruct r as [[data|e]].
  2: { left. split; [done|]. eexists. split; [done|by right]. }
  assert (∀ msg : pystr, error_response (Response (error_body msg) 400))
    as H400 by (intros msg; eexists; split; [done|by left]).
  assert (∀ msg : pystr, error_response (Response (error_body msg) 500))
    as H500 by (intros msg; eexists; split; [done|by right]).
  destruct data as [|b|z|f|s|l|d];
    try (left; unfold text_to_speech; unfold_monad; cbn -[text_missing];
         destruct (text_missing _) as [[|]|e]; cbn;
         (split; [done|]); first [apply H500|apply H400]).
  - destruct (assoc (py "text") d) as [text|] eqn:Ht.
    2: { left. unfold text_to_speech. unfold_monad. cbn -[text_missing].
         rewrite text_missing_dict, Ht. cbn. split; [done|apply H400]. }
    destruct (py_strip text) as [[|c s']|e] eqn:Hs.
    + left. unfold text_to_speech. unfold_monad. cbn -[text_missing].
      rewrite text_missing_dict, Ht. cbn. rewrite Hs.
      split; [done|apply H400].
    + right. destruct text; try discriminate. injection Hs as Hs.
      exists d, s. by rewrite Hs.
    + left. unfold text_to_speech. unfold_monad. cbn -[text_missing].
      rewrite text_missing_dict, Ht. cbn. rewrite Hs.
      split; [done|apply H500].
Qed.

(** ** Synthesis: validation, language and voice *)

(** X1. For a body whose text is a string, the answer is
    400 "Empty text provided" exactly when every character of the text is
    white space (the empty text included). *)
Theorem blank_text_rejected_iff (x : externals) (d : list (pystr * pyval))
    (text : pystr) (w : world) :
  assoc (py "text") d = Some (PStr text) →
  (text_to_speech x (TtsRequest (Return (PDict d))) w).1
    = Response (error_body (py "Empty text provided")) 400
  ↔ forallb py_isspace text = true.
Proof.
  intros Ht. rewrite <- strip_nil. split.
  - intros Hresp. destruct (strip text) as [|c s] eqn:Hs; [done|].
    exfalso. rewrite (text_to_speech_run _ _ text _ Ht) in Hresp by (by rewrite Hs).
    apply (f_equal status) in Hresp. cbn in Hresp.
    destruct (synthesis_run_status x text
                (from_option id (PStr (py "English")) (assoc (py "language") d))
                w) as [H|H]; rewrite H in Hresp; discriminate.
  - intros Hs. unfold text_to_speech. unfold_monad. cbn -[text_missing].
    rewrite text_missing_dict, Ht. cbn. by rewrite Hs.
Qed.

(** A key that hashes and is not in the catalog resolves as English. *)
Lemma resolve_voice_unknown (cat : voice_catalog) (language : pyval) :
  catalog_contains cat language = Return false →
  resolve_voice cat language = resolve_voice cat (PStr (py "English")).
Proof.
  intros Hc. unfold resolve_voice. rewrite Hc. cbn.
  by destruct (bool_decide (is_Some (assoc (py "English") cat))).
Qed.

(** X2. A request that names no language, or names one that is not a key
    of the catalog (an unknown name, a name in another case, null, a
    number), is served exactly as the same text with the language
    "English": same response, same world. *)
Theorem english_is_the_default (x : externals) (d : list (pystr * pyval))
    (text : pystr) (w : world) :
  assoc (py "text") d = Some (PStr text) →
  strip text ≠ [] →
  match assoc (py "language") d with
  | None => True
  | Some language => catalog_contains (catalog w) language = Return false
  end →
  text_to_speech x (TtsRequest (Return (PDict d))) w
  = text_to_speech x
      (TtsRequest (Return (PDict [ (py "text", PStr text);
                                   (py "language", PStr (py "English")) ]))) w.
Proof.
  intros Ht Hs Hl.
  rewrite (text_to_speech_run _ _ _ _ Ht Hs).
  rewrite (text_to_speech_run x
             [ (py "text", PStr text); (py "language", PStr (py "English")) ]
             text w eq_refl Hs).
  change (assoc (py "language") [ (py "text", PStr text);
                                  (py "language", PStr (py "English")) ])
    with (Some (PStr (py "English"))).
  destruct (assoc (py "language") d) as [language|]; cbn; [|done].
  unfold synthesis_run. by rewrite (resolve_voice_unknown _ _ Hl).
Qed.

Lemma first_speakers_In (cat : voice_catalog) (l name voice : pystr)
    (rest : list (pystr * pystr)) :
  assoc l cat = Some ((name, voice) :: rest) →
  In (name, voice) (first_speakers cat).
Proof.
  intros Hl%assoc_In. unfold first_speakers. apply in_flat_map.
  eexists. split; [exact Hl|]. by left.
Qed.

Lemma resolve_voice_first (cat : voice_catalog) (language : pyval)
    (name voice : pystr) :
  resolve_voice cat language = Return (name, voice) →
  In (name, voice) (first_speakers cat).
Proof.
  intros Hr. unfold resolve_voice in Hr.
  destruct (catalog_contains cat language) as [known|e]; [|done].
  cbn in Hr.
  destruct (catalog_getitem cat (if known then language else PStr (py "English")))
    as [speakers|e] eqn:Hg; [|done].
  cbn in Hr. destruct speakers as [|[n v] rest]; [done|].
  cbn in Hr. rewrite str_eqb_refl in Hr. injection Hr as -> ->.
  unfold catalog_getitem in Hg.
  destruct (if known then language else PStr (py "English"))
    as [| | | |l| |]; try done.
  destruct (assoc l cat) as [speakers|] eqn:Hl; [|done].
  injection Hg as ->. by eapply first_speakers_In.
Qed.

(** X3. Whatever the language asked for, the speaker chosen is the first
    one of some language of the catalog; on [language_dict] the voice is
    one of the ten first voices, so the second speaker of a language
    (Guy, Swara, ...) is never used. *)
Theorem only_first_speakers (cat : voice_catalog) (language : pyval)
    (name voice : pystr) :
  resolve_voice cat language = Return (name, voice) →
  In (name, voice) (first_speakers cat)
  ∧ (cat = language_dict →
     In voice [ py "en-US-JennyNeural"; py "hi-IN-MadhurNeural";
                py "ta-IN-PallaviNeural"; py "te-IN-MohanNeural";
                py "kn-IN-GaganNeural"; py "ml-IN-MidhunNeural";
                py "mr-IN-AarohiNeural"; py "gu-IN-DhwaniNeural";
                py "bn-BD-NabanitaNeural"; py "ur-IN-GulNeural" ]).
Proof.
  intros Hin%resolve_voice_first.
  split; [done|]. intros ->.
  apply (in_map snd) in Hin. exact Hin.
Qed.

(** X4. A language that is a list or an object cannot be looked up: the
    answer is 500 with Python's "unhashable type" message, and nothing was
    called or created. *)
Theorem unhashable_language_is_500 (x : externals) (d : list (pystr * pyval))
    (text : pystr) (language : pyval) (w : world) :
  assoc (py "text") d = Some (PStr text) →
  strip text ≠ [] →
  assoc (py "language") d = Some language →
  hashable language = false →
  text_to_speech x (TtsRequest (Return (PDict d))) w
  = (Response
       (error_body (py "TTS generation failed: unhashable type: '"
                      ++ type_name language ++ py "'")) 500,
     w).
Proof.
  intros Ht Hs Hl Hh. rewrite (text_to_speech_run _ _ _ _ Ht Hs), Hl. cbn.
  unfold synthesis_run, resolve_voice.
  by destruct language.
Qed.

Lemma text_to_speech_no_text (x : externals) (data : pyval) (w : world) :
  text_missing data = Return true →
  text_to_speech x (TtsRequest (Return data)) w
  = (Response (error_body (py "No text provided")) 400, w).
Proof.
  intros Hm. unfold text_to_speech. unfold_monad. cbn -[text_missing].
  by rewrite Hm.
Qed.

Lemma text_to_speech_test_raises (x : externals) (data : pyval) (w : world)
    (e : exn) :
  text_missing data = Raise e →
  text_to_speech x (TtsRequest (Return data)) w = (tts_failed e, w).
Proof.
  intros Hm. unfold text_to_speech. unfold_monad. cbn -[text_missing].
  by rewrite Hm.
Qed.

Lemma text_to_speech_item_raises (x : externals) (data : pyval) (w : world)
    (e : exn) :
  text_missing data = Return false →
  py_getitem data (py "text") = Raise e →
  text_to_speech x (TtsRequest (Return data)) w = (tts_failed e, w).
Proof.
  intros Hm Hg. unfold text_to_speech. unfold_monad. cbn -[text_missing].
  rewrite Hm. cbn. by rewrite Hg.
Qed.

Lemma text_missing_cases (data : pyval) :
  text_missing data
  = if truthy data
    then match py_in (py "text") data with
         | Return present => Return (negb present)
         | Raise e => Raise e
         end
    else Return true.
Proof.
  unfold text_missing. destruct (truthy data); cbn; [|done].
  by destruct (py_in (py "text") data).
Qed.

(** X5. A body that is not a JSON object never gets to synthesis: the
    world is left as it was and the answer is an error. It is 400
    "No text provided" when the body is falsy (null, false, 0, an empty
    string or list) or does not contain "text"; it is 500 when the body is
    a non-zero number or [true] (no membership test), or a string or list
    that contains "text" (no item of that name). *)
Theorem non_object_body (x : externals) (data : pyval) (w : world) :
  (∀ d, data ≠ PDict d) →
  (text_to_speech x (TtsRequest (Return data)) w).2 = w
  ∧ ((truthy data = false ∨ py_in (py "text") data = Return false) →
     (text_to_speech x (TtsRequest (Return data)) w).1
       = Response (error_body (py "No text provided")) 400)
  ∧ (truthy data = true → py_in (py "text") data ≠ Return false →
     ∃ msg, (text_to_speech x (TtsRequest (Return data)) w).1
            = Response (error_body (py "TTS generation failed: " ++ msg)) 500).
Proof.
  intros Hnd. pose proof (text_missing_cases data) as Hm.
  destruct (truthy data) eqn:Htruthy.
  2: { rewrite (text_to_speech_no_text _ _ _ Hm). repeat split; done. }
  destruct (py_in (py "text") data) as [[|]|e] eqn:Hin; cbn in Hm.
  - assert (∃ e, py_getitem data (py "text") = Raise e) as [e He].
    { destruct data; try discriminate; try (by eexists). by destruct (Hnd d). }
    rewrite (text_to_speech_item_raises _ _ _ _ Hm He).
    split; [done|]. split; [by intros [?|?]|]. intros _ _. by eexists.
  - rewrite (text_to_speech_no_text _ _ _ Hm).
    split; [done|]. split; [done|]. by intros _ ?.
  - rewrite (text_to_speech_test_raises _ _ _ _ Hm).
    split; [done|]. split; [by intros [?|?]|]. intros _ _. by eexists.
Qed.

(** X6. When the backend's [save] or [send_file] fails, the answer is 500
    with the fault's message, and the .mp3 file created for the request is
    left behind. *)
Theorem synthesis_fault_leaves_file (x : externals) (d : list (pystr * pyval))
    (text : pystr) (w : world) (e : exn) :
  catalog w = language_dict →
  assoc (py "text") d = Some (PStr text) →
  strip text ≠ [] →
  hashable (from_option id (PStr (py "English")) (assoc (py "language") d))
    = true →
  tempfile_fault x = None →
  edge_tts_save x = Raise e
  ∨ ((∃ audio, edge_tts_save x = Return audio) ∧ send_file_fault x = Some e) →
  (text_to_speech x (TtsRequest (Return (PDict d))) w).1
    = Response (error_body (py "TTS generation failed: " ++ message e)) 500
  ∧ fs w !! fresh (dom (fs w)) = None
  ∧ ∃ audio,
      fs (text_to_speech x (TtsRequest (Return (PDict d))) w).2
        !! fresh (dom (fs w))
      = Some (TmpFile (py ".mp3") audio).
Proof.
  intros Hcat Ht Hs Hh Htmp Hfault.
  rewrite (text_to_speech_run _ _ _ _ Ht Hs). unfold synthesis_run.
  destruct (resolve_voice_defined language_dict _ language_dict_ok Hh)
    as (name & voice & Hr & _).
  rewrite Hcat, Hr, Htmp.
  split; [|split; [apply fresh_name_free|]].
  - destruct Hfault as [->|[[audio ->] ->]]; done.
  - destruct Hfault as [->|[[audio ->] ->]]; cbn;
      eexists; apply lookup_insert_eq.
Qed.

(** ** Transcription: what happens around the backend call *)

Section TranscribePaths.

Variable py_str : pyval → pystr.

(** The request either gets as far as the backend call, or does not, and
    then the log is as it was and the files are those there were, but for
    the new .webm file when the upload could not be written. *)
Lemma transcribe_paths (x : externals) (r : transcribe_request) (w : world) :
  dispatched x r
  ∨ (¬ dispatched x r
     ∧ backend_log (transcribe py_str x r w).2 = backend_log w
     ∧ (fs (transcribe py_str x r w).2 = fs w
        ∨ fs (transcribe py_str x r w).2
          = <[fresh (dom (fs w)) := TmpFile (py ".webm") []]> (fs w))).
Proof.
  destruct (assoc (py "file") (files r)) as [u|] eqn:Hfile.
  2: { right. split; [intros ((u & ? & _) & _); congruence|].
       unfold transcribe. rewrite Hfile. split; [done|by left]. }
  destruct (str_eqb (filename u) []) eqn:Hname.
  { right. split.
    - intros ((u' & Hu & Hne) & _). apply Hne.
      apply str_eqb_eq. congruence.
    - unfold transcribe. rewrite Hfile, Hname. split; [done|by left]. }
  destruct (tempfile_fault x) as [e|] eqn:Htmp.
  { right. split; [intros (_ & ? & _); congruence|].
    unfold transcribe. rewrite Hfile, Hname. unfold_monad. rewrite Htmp.
    split; [done|by left]. }
  destruct (upload_save_fault x) as [e|] eqn:Hsave.
  { right. split; [intros (_ & _ & ?); congruence|].
    unfold transcribe. rewrite Hfile, Hname. unfold_monad.
    rewrite Htmp, Hsave. split; [done|by right]. }
  left. split; [|done]. exists u. split; [done|].
  intros Heq. by rewrite Heq in Hname.
Qed.

(** X7. The transcription backend is called, once, exactly by the requests
    that carry a named file and whose temporary file could be created and
    written; every other request leaves the log of calls as it was. *)
Theorem backend_called_iff_dispatched (x : externals) (r : transcribe_request)
    (w : world) :
  (backend_log (transcribe py_str x r w).2 = backend_log w ++ [whisper_call w]
   ↔ dispatched x r)
  ∧ (backend_log (transcribe py_str x r w).2 = backend_log w
     ↔ ¬ dispatched x r).
Proof.
  assert (backend_log w ≠ backend_log w ++ [whisper_call w]) as Hgrow.
  { intros Heq%(f_equal length). rewrite length_app in Heq. simpl in Heq. lia. }
  destruct (transcribe_paths x r w) as [Hd|(Hnd & Hlog & _)].
  - rewrite (transcribe_dispatched _ _ _ _ Hd). cbn. split; split; done.
  - rewrite Hlog. split; split; done.
Qed.


(** X9. A request that gets as far as the backend call leaves the world
    with the files and the catalog it found and one more call in the log,
    whether the backend returns or raises: its .webm file is removed on
    both branches. *)
Theorem dispatched_request_world (x : externals) (r : transcribe_request)
    (w : world) :
  dispatched x r →
  (transcribe py_str x r w).2
  = World (fs w) (catalog w) (backend_log w ++ [whisper_call w])
  ∧ (status (transcribe py_str x r w).1 = 200
     ↔ ∃ output, replicate_run x = Return output).
Proof.
  intros Hd. rewrite (transcribe_dispatched _ _ _ _ Hd). split; [done|].
  destruct (replicate_run x) as [output|e]; cbn; split; try done.
  - by exists output.
  - by intros [output ?].
Qed.

End TranscribePaths.

(** ** Files and calls over the life of the process *)

Lemma synthesis_run_fs (x : externals) (text : pystr) (language : pyval)
    (w : world) :
  fs (synthesis_run x text language w).2 = fs w
  ∨ ∃ audio, fs (synthesis_run x text language w).2
             = <[fresh (dom (fs w)) := TmpFile (py ".mp3") audio]> (fs w).
Proof.
  unfold synthesis_run.
  destruct (resolve_voice (catalog w) language) as [[speaker voice]|e];
    [|by left].
  destruct (tempfile_fault x); [by left|].
  destruct (edge_tts_save x); [|by right; eexists].
  destruct (send_file_fault x); right; by eexists.
Qed.

Lemma synthesis_run_log (x : externals) (text : pystr) (language : pyval)
    (w : world) :
  ∃ new, backend_log (synthesis_run x text language w).2 = backend_log w ++ new
         ∧ ∀ c, In c new →
             ∃ name voice,
               resolve_voice (catalog w) language = Return (name, voice)
               ∧ (c = EdgeCommunicate (PStr text) voice
                  ∨ ∃ dest, c = EdgeSave (PStr text) voice dest).
Proof.
  unfold synthesis_run.
  destruct (resolve_voice (catalog w) language) as [[speaker voice]|e].
  2: { exists []. rewrite app_nil_r. by split. }
  assert (∀ c dest,
            In c [EdgeCommunicate (PStr text) voice;
                  EdgeSave (PStr text) voice dest] →
            ∃ name voice',
              Return (speaker, voice) = Return (name, voice')
              ∧ (c = EdgeCommunicate (PStr text) voice'
                 ∨ ∃ dest', c = EdgeSave (PStr text) voice' dest')) as Hnew.
  { intros c dest [<-|[<-|[]]]; exists speaker, voice; split; try done.
    - by left.
    - right. by exists dest. }
  destruct (tempfile_fault x).
  { exists [EdgeCommunicate (PStr text) voice]. split; [done|].
    intros c Hc. apply (Hnew c 0%N). destruct Hc as [<-|[]]. by left. }
  exists [EdgeCommunicate (PStr text) voice;
          EdgeSave (PStr text) voice (fresh (dom (fs w)))].
  split; [|intros c Hc; by apply (Hnew c (fresh (dom (fs w))))].
  destruct (edge_tts_save x); [destruct (send_file_fault x)|];
    cbn; by rewrite <- (assoc_L (++)).
Qed.

Lemma whisper_call_ok (w : world) : gateway_call (whisper_call w).
Proof. split; [done|]. by eexists. Qed.

Section Process.

Variable py_str : pyval → pystr.

Lemma serve_fs (x : externals) (req : request) (w : world) :
  fs (serve py_str x req w).2 = fs w
  ∨ ∃ f, fs (serve py_str x req w).2 = <[fresh (dom (fs w)) := f]> (fs w)
         ∧ (suffix f = py ".webm" ∨ suffix f = py ".mp3").
Proof.
  destruct req as [|r|r]; cbn.
  - by left.
  - destruct (transcribe_paths py_str x r w) as [Hd|(_ & _ & [Hfs|Hfs])].
    + left. by rewrite transcribe_dispatched.
    + by left.
    + right. eexists. split; [exact Hfs|by left].
  - destruct (text_to_speech_stopped_or_run x r w)
      as [[-> _]|(d & text & -> & Ht & Hs)]; [by left|].
    rewrite (text_to_speech_run _ _ _ _ Ht Hs).
    destruct (synthesis_run_fs x text
                (from_option id (PStr (py "English")) (assoc (py "language") d))
                w) as [Hfs|[audio Hfs]]; [by left|].
    right. eexists. split; [exact Hfs|by right].
Qed.

Lemma serve_log (x : externals) (req : request) (w : world) :
  catalog w = language_dict →
  ∃ new, backend_log (serve py_str x req w).2 = backend_log w ++ new
         ∧ Forall gateway_call new.
Proof.
  intros Hcat. destruct req as [|r|r]; cbn.
  - exists []. by rewrite app_nil_r.
  - destruct (transcribe_log py_str x r w) as [->| ->].
    + exists []. by rewrite app_nil_r.
    + eexists. split; [done|]. constructor; [apply whisper_call_ok|done].
  - destruct (text_to_speech_stopped_or_run x r w)
      as [[-> _]|(d & text & -> & Ht & Hs)].
    { exists []. by rewrite app_nil_r. }
    rewrite (text_to_speech_run _ _ _ _ Ht Hs).
    destruct (synthesis_run_log x text
                (from_option id (PStr (py "English")) (assoc (py "language") d))
                w) as (new & -> & Hnew).
    exists new. split; [done|]. apply Forall_forall. intros c Hc.
    destruct (Hnew c (proj1 (list_elem_of_In _ _) Hc))
      as (name & voice & Hr & Hshape).
    rewrite Hcat in Hr. apply resolve_voice_first, (in_map snd) in Hr.
    destruct Hshape as [->|[dest ->]]; exact Hr.
Qed.

Lemma reachable_catalog (w : world) :
  reachable py_str w → catalog w = language_dict.
Proof.
  induction 1 as [|w x req Hw IH]; [done|]. by rewrite serve_catalog.
Qed.

(** X10. A request never touches the files of another: every file that
    exists when a request starts is there, with the same bytes, when it
    ends; and a request adds at most one file, under a name that was free,
    with suffix .webm or .mp3. *)
Theorem requests_keep_existing_files (x : externals) (req : request)
    (w : world) :
  (∀ name f, fs w !! name = Some f → fs (serve py_str x req w).2 !! name = Some f)
  ∧ (fs (serve py_str x req w).2 = fs w
     ∨ ∃ f, fs w !! fresh (dom (fs w)) = None
            ∧ fs (serve py_str x req w).2 = <[fresh (dom (fs w)) := f]> (fs w)
            ∧ (suffix f = py ".webm" ∨ suffix f = py ".mp3")).
Proof.
  pose proof (fresh_name_free w) as Hfree.
  destruct (serve_fs x req w) as [->|(f & -> & Hsfx)].
  - split; [done|by left].
  - split.
    + intros name f' Hname. rewrite lookup_insert_ne; [done|].
      intros <-. congruence.
    + right. by exists f.
Qed.

(** X11. In every world the process reaches, each call in the log is one
    the gateway is meant to make: a transcription with the fixed version
    and options, or a synthesis with the voice of the first speaker of a
    language of [language_dict]; and each temporary file that exists has
    suffix .webm or .mp3. *)
Theorem reachable_worlds_wellformed (w : world) :
  reachable py_str w →
  Forall gateway_call (backend_log w)
  ∧ map_Forall (λ _ f, suffix f = py ".webm" ∨ suffix f = py ".mp3") (fs w).
Proof.
  induction 1 as [|w x req Hw [IHlog IHfs]].
  - split; [constructor|]. apply map_Forall_empty.
  - split.
    + destruct (serve_log x req w (reachable_catalog _ Hw)) as (new & -> & Hnew).
      by apply Forall_app.
    + destruct (serve_fs x req w) as [->|(f & -> & Hsfx)]; [done|].
      by apply map_Forall_insert_2.
Qed.

End Process.

(** X12. After every request to [/tts] that is answered 200, the file the
    response streams is a .mp3 file that did not exist before the request
    and still exists after it: the handler never removes it. *)
Theorem successful_synthesis_keeps_file (x : externals) (r : tts_request)
    (w : world) :
  status (text_to_speech x r w).1 = 200 →
  ∃ name audio,
    resp_body (text_to_speech x r w).1
      = FileBody name (py "audio/mpeg") (py "speech.mp3")
    ∧ edge_tts_save x = Return audio
    ∧ fs w !! name = None
    ∧ fs (text_to_speech x r w).2 = <[name := TmpFile (py ".mp3") audio]> (fs w).
Proof.
  intros Hst.
  destruct (text_to_speech_stopped_or_run x r w)
    as [[_ (msg & _ & [H4|H5])]|(d & text & -> & Ht & Hs)];
    [rewrite H4 in Hst; discriminate | rewrite H5 in Hst; discriminate |].
  rewrite (text_to_speech_run _ _ _ _ Ht Hs) in *. unfold synthesis_run in *.
  destruct (resolve_voice (catalog w) _) as [[speaker voice]|e]; [|done].
  destruct (tempfile_fault x); [done|].
  destruct (edge_tts_save x) as [audio|e]; [|done].
  destruct (send_file_fault x); [done|].
  exists (fresh (dom (fs w))), audio. repeat split. apply fresh_name_free.
Qed.

(** ** The remote control loop *)

Section CecRemoteProperties.

Context {event : Type} `{EqDecision event}.

Variables UP DOWN LEFT RIGHT SELECT : event.

Local Abbreviation turn := (on_event UP DOWN LEFT RIGHT SELECT).
Local Abbreviation loop := (remote_loop UP DOWN LEFT RIGHT SELECT).

Lemma remote_loop_executed (polls : list (option event))
    (executed : list (list pystr)) :
  loop polls executed = executed ++ flat_map turn polls.
Proof.
  revert executed. induction polls as [|polled polls IH]; intros executed; simpl.
  - by rewrite app_nil_r.
  - by rewrite IH, <- (assoc_L (++)).
Qed.

Lemma on_event_keys (polled : option event) (c : list pystr) :
  In c (turn polled) →
  ∃ key, c = [py "xdotool"; py "key"; key]
         ∧ In key [py "Up"; py "Down"; py "Left"; py "Right"; py "Return"].
Proof.
  unfold on_event, send_key. destruct polled as [e|]; [|done].
  repeat case_bool_decide; simpl; intros Hc; try done;
    destruct Hc as [<-|[]]; eexists; (split; [done|]); simpl; tauto.
Qed.

Lemma on_event_length (polled : option event) :
  (length (turn polled) ≤ 1)%nat.
Proof.
  unfold on_event. destruct polled as [e|]; [|simpl; lia].
  repeat case_bool_decide; simpl; lia.
Qed.


(** X14. Whatever is polled, every command the loop runs is xdotool key
    with one of the five keys Up, Down, Left, Right and Return; a poll runs
    at most one command, and a poll without event runs none. *)
Theorem remote_loop_commands (polls : list (option event)) :
  (∀ c, In c (loop polls []) →
     ∃ key, c = [py "xdotool"; py "key"; key]
            ∧ In key [py "Up"; py "Down"; py "Left"; py "Right"; py "Return"])
  ∧ (length (loop polls []) ≤ length polls)%nat
  ∧ (Forall (λ polled, polled = None) polls → loop polls [] = []).
Proof.
  rewrite remote_loop_executed. simpl. split; [|split].
  - intros c (polled & _ & Hc)%in_flat_map. by apply (on_event_keys polled).
  - induction polls as [|polled polls IH]; simpl; [lia|].
    rewrite length_app. pose proof (on_event_length polled). lia.
  - induction 1 as [|polled polls -> _ IH]; simpl; [done|]. exact IH.
Qed.

(** X15. When the five button codes are distinct, each button presses its
    own key (select presses Return) and an event with any other code
    presses none. *)
Theorem remote_keys (e : event) :
  NoDup [UP; DOWN; LEFT; RIGHT; SELECT] →
  turn (Some UP) = [send_key (py "Up")]
  ∧ turn (Some DOWN) = [send_key (py "Down")]
  ∧ turn (Some LEFT) = [send_key (py "Left")]
  ∧ turn (Some RIGHT) = [send_key (py "Right")]
  ∧ turn (Some SELECT) = [send_key (py "Return")]
  ∧ (e ∉ [UP; DOWN; LEFT; RIGHT; SELECT] → turn (Some e) = []).
Proof.
  intros Hnd. unfold on_event.
  repeat split; try intros Hnot; repeat case_bool_decide; try done;
    subst; exfalso;
    repeat match goal with
           | H : NoDup (_ :: _) |- _ => apply NoDup_cons in H as [? ?]
           end;
    set_solver.
Qed.

End CecRemoteProperties.

(** X16. A language that is a key of the catalog is spoken by its own
    first speaker: the voice is the one listed first under that language,
    whatever else the catalog holds. *)
Theorem known_language_voice (cat : voice_catalog) (language name voice : pystr)
    (others : list (pystr * pystr)) :
  assoc language cat = Some ((name, voice) :: others) →
  resolve_voice cat (PStr language) = Return (name, voice).
Proof.
  intros Hl. unfold resolve_voice. cbn. rewrite Hl. cbn. rewrite Hl. cbn.
  by rewrite str_eqb_refl.
Qed.

(** * The further properties at sample requests *)

Lemma hello_not_blank : strip (py "hello") ≠ [].
Proof. intros H. vm_compute in H. discriminate. Defined.

Lemma blank_text_rejected_iff_witness :
  (text_to_speech backends_up
     (TtsRequest (Return (PDict [(py "text", PStr (py "   "))]))) startup).1
  = Response (error_body (py "Empty text provided")) 400.
Proof.
  apply (blank_text_rejected_iff backends_up [(py "text", PStr (py "   "))]
           (py "   ") startup eq_refl).
  reflexivity.
Defined.

Lemma english_is_the_default_witness :
  text_to_speech backends_up
    (TtsRequest (Return (PDict say_hello_in_klingon))) startup
  = text_to_speech backends_up
      (TtsRequest (Return (PDict [ (py "text", PStr (py "hello"));
                                   (py "language", PStr (py "English")) ])))
      startup.
Proof.
  apply (english_is_the_default backends_up say_hello_in_klingon (py "hello")
           startup eq_refl hello_not_blank).
  reflexivity.
Defined.

Lemma only_first_speakers_witness :
  In (py "Madhur", py "hi-IN-MadhurNeural") (first_speakers language_dict).
Proof.
  apply (only_first_speakers language_dict (PStr (py "Hindi")) (py "Madhur")
           (py "hi-IN-MadhurNeural")).
  reflexivity.
Defined.

Lemma unhashable_language_is_500_witness :
  text_to_speech backends_up
    (TtsRequest
       (Return (PDict [ (py "text", PStr (py "hello"));
                        (py "language", PList [PStr (py "Hindi")]) ])))
    startup
  = (Response
       (error_body (py "TTS generation failed: unhashable type: 'list'")) 500,
     startup).
Proof.
  apply (unhashable_language_is_500 backends_up
           [ (py "text", PStr (py "hello"));
             (py "language", PList [PStr (py "Hindi")]) ]
           (py "hello") (PList [PStr (py "Hindi")]) startup
           eq_refl hello_not_blank eq_refl eq_refl).
Defined.

Lemma non_object_body_witness :
  (text_to_speech backends_up (TtsRequest (Return (PInt 5))) startup).2
  = startup.
Proof.
  apply (non_object_body backends_up (PInt 5) startup).
  intros d H. discriminate.
Defined.

Lemma synthesis_fault_leaves_file_witness :
  (text_to_speech edge_down say_hello startup).1
  = Response
      (error_body
         (py "TTS generation failed: Cannot connect to host speech.platform.bing.com"))
      500
  ∧ ∃ audio, fs (text_to_speech edge_down say_hello startup).2 !! 0%N
             = Some (TmpFile (py ".mp3") audio).
Proof.
  destruct (synthesis_fault_leaves_file edge_down say_hello_body (py "hello")
              startup network_fault eq_refl eq_refl hello_not_blank eq_refl
              eq_refl (or_introl eq_refl)) as (Hresp & _ & Hfile).
  split; [exact Hresp | exact Hfile].
Defined.

Lemma backend_called_iff_dispatched_witness :
  backend_log (transcribe str_placeholder backends_up upload_request startup).2
  = [whisper_call startup].
Proof.
  apply (proj2 (proj1 (backend_called_iff_dispatched str_placeholder
                         backends_up upload_request startup))).
  exact (upload_request_dispatched backends_up eq_refl eq_refl).
Defined.


Lemma dispatched_request_world_witness :
  (transcribe str_placeholder replicate_down upload_request startup).2
  = World ∅ language_dict [whisper_call startup].
Proof.
  exact (proj1 (dispatched_request_world str_placeholder replicate_down
                  upload_request startup
                  (upload_request_dispatched replicate_down eq_refl eq_refl))).
Defined.

Lemma requests_keep_existing_files_witness :
  fs (serve str_placeholder backends_up (PostTranscribe upload_request)
        (serve str_placeholder backends_up (PostTts say_hello) startup).2).2
    !! 0%N
  = Some (TmpFile (py ".mp3") [Byte.xff; Byte.xfb]).
Proof.
  apply (proj1 (requests_keep_existing_files str_placeholder backends_up
                  (PostTranscribe upload_request)
                  (serve str_placeholder backends_up (PostTts say_hello)
                     startup).2)).
  reflexivity.
Defined.

Lemma reachable_worlds_wellformed_witness :
  Forall gateway_call
    (backend_log
       (serve str_placeholder backends_up (PostTts say_hello) startup).2).
Proof.
  apply (reachable_worlds_wellformed str_placeholder).
  apply reachable_serve, reachable_startup.
Defined.

Lemma successful_synthesis_keeps_file_witness :
  ∃ name audio,
    resp_body (text_to_speech backends_up say_hello startup).1
      = FileBody name (py "audio/mpeg") (py "speech.mp3")
    ∧ edge_tts_save backends_up = Return audio
    ∧ fs startup !! name = None
    ∧ fs (text_to_speech backends_up say_hello startup).2
      = <[name := TmpFile (py ".mp3") audio]> (fs startup).
Proof.
  apply (successful_synthesis_keeps_file backends_up say_hello startup).
  reflexivity.
Defined.

Lemma remote_loop_commands_witness :
  remote_loop 1 2 3 4 0 [None; None; None] [] = [].
Proof.
  apply (remote_loop_commands 1 2 3 4 0 [None; None; None]).
  repeat constructor.
Defined.

Lemma remote_keys_witness :
  on_event 1 2 3 4 0 (Some 0) = [send_key (py "Return")]
  ∧ on_event 1 2 3 4 0 (Some 2) = [send_key (py "Down")].
Proof.
  assert (NoDup [1; 2; 3; 4; 0]) as Hcodes.
  { apply (bool_decide_unpack _). by vm_compute. }
  destruct (remote_keys 1 2 3 4 0 7 Hcodes) as (_ & Hdown & _ & _ & Hselect & _).
  split; [exact Hselect | exact Hdown].
Defined.

Lemma known_language_voice_witness :
  resolve_voice language_dict (PStr (py "Bengali"))
  = Return (py "Nabanita", py "bn-BD-NabanitaNeural").
Proof.
  apply (known_language_voice language_dict (py "Bengali") (py "Nabanita")
           (py "bn-BD-NabanitaNeural")
           [(py "Bashkar", py "bn-IN-BashkarNeural")]).
  reflexivity.
Defined.

(** * Synthesis requests without text that are not rejected *)

(** C3 fails on the code. Line 170 means to answer 400 to every request
    without text, but its test covers only bodies that are falsy or that
    support [in]: a body that is a non-zero number or [true] has no text,
    makes ['text' not in data] raise TypeError, and is answered 500 by the
    last clause of the handler; a request without a JSON body, for which
    [get_json] raises, is answered 500 the same way. No backend is called
    and no file is created in either case. *)
Theorem missing_text_answered_500 (x : externals) (w : world) :
  text_to_speech x (TtsRequest (Return (PInt 5))) w
  = (Response
       (error_body
          (py "TTS generation failed: argument of type 'int' is not iterable"))
       500,
     w)
  ∧ text_to_speech x (TtsRequest (Return (PBool true))) w
    = (Response
         (error_body
            (py "TTS generation failed: argument of type 'bool' is not iterable"))
         500,
       w)
  ∧ text_to_speech x (TtsRequest (Raise no_json_body)) w
    = (Response
         (error_body (py "TTS generation failed: " ++ message no_json_body)) 500,
       w)
  ∧ status (text_to_speech x (TtsRequest (Return (PInt 5))) w).1 ≠ 400.
Proof. repeat split; try reflexivity. cbn. discriminate. Qed.
